(** * The web-app's [next.config.mjs]: configuration resolution and
      security-header injection.

    The module under study builds one configuration object from validated
    environment flags, optionally wraps it with the Sentry and
    bundle-analyzer add-ons, and exposes an [async headers()] method that
    attaches a precomputed list of response headers to a route pattern.

    JavaScript objects are kept as ordered association lists (insertion
    order is observable through [Object.entries] and object spread),
    [process.env] is a finite map, and the imported packages are an
    interface the development is parametric in. *)

From Stdlib Require Import ZArith Ascii String List Bool Lia.
From Stdlib Require Import DecimalString.
From stdpp Require Import base option gmap strings.
Import ListNotations.
Open Scope string_scope.

(** ** JavaScript values and object literals *)

Module Js.

#[local] Unset Elimination Schemes.
Inductive JsValue : Type :=
| JUndefined
| JNull
| JBool (b : bool)
| JNum (n : Z)
| JStr (s : string)
| JArr (items : list JsValue)
| JObj (fields : list (string * JsValue))
(* a function value: the name of its code and the variables it closes over *)
| JFun (code : string) (captured : list (string * JsValue)).
#[local] Set Elimination Schemes.

Definition Fields := list (string * JsValue).

(** [o[k]] on own properties; [None] when the key is absent. *)
Fixpoint assoc (k : string) (o : Fields) : option JsValue :=
  match o with
  | [] => None
  | (k', v) :: rest => if String.eqb k k' then Some v else assoc k rest
  end.

(** [o[k] = v]: an existing key keeps its position, a new one goes last. *)
Fixpoint assign (k : string) (v : JsValue) (o : Fields) : Fields :=
  match o with
  | [] => [(k, v)]
  | (k', v') :: rest =>
      if String.eqb k k' then (k, v) :: rest else (k', v') :: assign k v rest
  end.

(** [const { k, ...rest } = o]: the rest object. *)
Fixpoint omit (k : string) (o : Fields) : Fields :=
  match o with
  | [] => []
  | (k', v) :: rest =>
      if String.eqb k k' then omit k rest else (k', v) :: omit k rest
  end.

(** The members of an object literal: [k: v] and [...v]. *)
Inductive Member : Type :=
| Prop_ (k : string) (v : JsValue)
| Spread (v : JsValue).

Definition own_fields (v : JsValue) : Fields :=
  match v with
  | JObj o => o
  | _ => []
  end.

Definition define (acc : Fields) (m : Member) : Fields :=
  match m with
  | Prop_ k v => assign k v acc
  | Spread v => fold_left (fun a kv => assign (fst kv) (snd kv) a) (own_fields v) acc
  end.

(** An object literal is evaluated member by member, left to right. *)
Definition obj (ms : list Member) : JsValue := JObj (fold_left define ms []).

Definition member (k : string) (v : JsValue) : option JsValue :=
  assoc k (own_fields v).

(** [v.k1.k2...]; [None] as soon as a key is absent. *)
Fixpoint lookup_path (p : list string) (v : JsValue) : option JsValue :=
  match p with
  | [] => Some v
  | k :: p' =>
      match member k v with
      | Some v' => lookup_path p' v'
      | None => None
      end
  end.

(** Property read [v.k]: [undefined] when the key is absent. *)
Definition get (k : string) (v : JsValue) : JsValue :=
  match member k v with Some x => x | None => JUndefined end.

(** [a ?? b] *)
Definition nullish (a b : JsValue) : JsValue :=
  match a with
  | JUndefined | JNull => b
  | _ => a
  end.

Definition strs (l : list string) : JsValue := JArr (map JStr l).
Definition nums (l : list Z) : JsValue := JArr (map JNum l).

End Js.
Import Js.

(** ** Response headers and the options of [next-secure-headers] *)

Record Header := { key : string; value : string }.

Definition js_of_header (h : Header) : JsValue :=
  obj [Prop_ "key" (JStr (key h)); Prop_ "value" (JStr (value h))].

(** A directive value is a single source or an array of sources. *)
Inductive DirectiveValue :=
| One (src : string)
| Many (srcs : list string).

Definition Directives := list (string * DirectiveValue).

Record ContentSecurityPolicyOption := { directives : Directives }.

Record HstsOptions := { maxAge : Z; includeSubDomains : bool }.

(** The three options this configuration passes; every other option of the
    package is left [undefined]. An absent property is [None]. *)
Record SecureHeadersOptions := {
  contentSecurityPolicy : option ContentSecurityPolicyOption;
  forceHTTPSRedirect : option (bool * HstsOptions);
  referrerPolicy : option string
}.

(** ** What the module imports *)

(** The third-party packages: [createSecureHeaders] of next-secure-headers,
    [withSentryConfig] of @sentry/nextjs, [withBundleAnalyzer] of
    @next/bundle-analyzer (options first, then the configuration) and
    [pc.green] of picocolors. *)
Class Packages := {
  createSecureHeaders : SecureHeadersOptions -> list Header;
  withSentryConfig : JsValue -> JsValue -> JsValue;
  withBundleAnalyzer : JsValue -> JsValue -> JsValue;
  green : string -> string
}.

(** Modelled from the spec: the type of [buildEnv], declared in
    ./src/config/build-env.config.mjs which is not among the sources. The
    flags are booleans or strings, already validated. *)
Record BuildEnv := {
  NEXT_BUILD_ENV_SOURCEMAPS : bool;
  NEXT_BUILD_ENV_CSP : bool;
  NEXT_BUILD_ENV_CI : bool;
  NEXT_BUILD_ENV_OUTPUT : string;
  NEXT_BUILD_ENV_TYPECHECK : bool;
  NEXT_BUILD_ENV_TSCONFIG : string;
  NEXT_BUILD_ENV_LINT : bool;
  NEXT_BUILD_ENV_SENTRY_ENABLED : bool;
  NEXT_BUILD_ENV_SENTRY_DEBUG : bool;
  NEXT_BUILD_ENV_SENTRY_TRACING : bool;
  NEXT_BUILD_ENV_SENTRY_UPLOAD_DRY_RUN : bool
}.

(** What the module reads from the process it runs in. *)
Record Host := {
  process_env : gmap string string;   (* process.env *)
  packageJson : JsValue;              (* the parsed ./package.json *)
  nextI18nConfig : JsValue;           (* default export of ./next-i18next.config.mjs *)
  workspaceRoot : string;             (* path.resolve(dirname, '..', '..') *)
  now : string                        (* new Date().toISOString() *)
}.

Inductive StartupError :=
| InvalidEnv (flag : string).

(** The two environment modules of the repository, as the configuration
    uses them: importing [buildEnv] and calling [getServerRuntimeEnv()]
    either yields a value or throws. *)
Class EnvModules := {
  importBuildEnv : gmap string string -> StartupError + BuildEnv;
  getServerRuntimeEnv : gmap string string -> StartupError + JsValue
}.

(** ** The module body *)

Section NextConfig.
Context `{Packages}.

Definition isProd (h : Host) : bool :=
  bool_decide (process_env h !! "NODE_ENV" = Some "production").

Definition sourcemapsNotice : string :=
  "- " ++ green "info" ++
  " Sourcemaps generation have been disabled through NEXT_BUILD_ENV_SOURCEMAPS".

Definition cspDirectives : Directives :=
  [ ("defaultSrc", One "'self'");
    ("styleSrc", Many [ "'self'"; "'unsafe-inline'";
                        "https://unpkg.com/@graphql-yoga/graphiql/dist/style.css";
                        "https://meet.jitsi.si"; "https://8x8.vc" ]);
    ("scriptSrc", Many [ "'self'"; "'unsafe-eval'"; "'unsafe-inline'";
                         "https://unpkg.com/@graphql-yoga/graphiql" ]);
    ("frameSrc", Many [ "'self'" ]);
    ("connectSrc", Many [ "'self'"; "https://vitals.vercel-insights.com";
                          "https://*.sentry.io" ]);
    ("imgSrc", Many [ "'self'"; "https:"; "http:"; "data:" ]);
    ("workerSrc", Many [ "blob:" ]) ].

Definition secureHeadersOptions (be : BuildEnv) (h : Host) : SecureHeadersOptions :=
  {| contentSecurityPolicy :=
       Some {| directives := if NEXT_BUILD_ENV_CSP be then cspDirectives else [] |};
     forceHTTPSRedirect :=
       if NEXT_BUILD_ENV_CSP be
          && bool_decide (process_env h !! "NODE_ENV" = Some "production")
       then Some (true, {| maxAge := 60 * 60 * 24 * 4; includeSubDomains := true |})
       else None;
     referrerPolicy := Some "same-origin" |}.

Definition secureHeaders (be : BuildEnv) (h : Host) : list Header :=
  createSecureHeaders (secureHeadersOptions be h).

Definition images : JsValue :=
  obj [ Prop_ "deviceSizes" (nums [640; 750; 828; 1080; 1200; 1920; 2048; 3840]%Z);
        Prop_ "imageSizes" (nums [16; 32; 48; 64; 96; 128; 256; 384]%Z);
        Prop_ "minimumCacheTTL" (JNum 60);
        Prop_ "formats" (strs ["image/webp"]);
        Prop_ "loader" (JStr "default");
        Prop_ "dangerouslyAllowSVG" (JBool false);
        Prop_ "disableStaticImages" (JBool false);
        Prop_ "contentSecurityPolicy"
          (JStr "default-src 'self'; script-src 'none'; sandbox;");
        Prop_ "remotePatterns"
          (JArr [ obj [ Prop_ "protocol" (JStr "https");
                        Prop_ "hostname" (JStr "avatars.githubusercontent.com") ] ]);
        Prop_ "unoptimized" (JBool false) ].

Definition modularizeImports : JsValue :=
  obj [ Prop_ "@mui/material"
          (obj [Prop_ "transform" (JStr "@mui/material/{{member}}")]);
        Prop_ "@mui/icons-material"
          (obj [Prop_ "transform" (JStr "@mui/icons-material/{{member}}")]);
        Prop_ "@mui/styles"
          (obj [Prop_ "transform" (JStr "@mui/styles/{{member}}")]) ].

Definition nextConfig (be : BuildEnv) (h : Host) : JsValue :=
  obj [
    Prop_ "reactStrictMode" (JBool true);
    Prop_ "productionBrowserSourceMaps" (JBool (NEXT_BUILD_ENV_SOURCEMAPS be));
    Prop_ "i18n" (get "i18n" (nextI18nConfig h));
    Prop_ "optimizeFonts" (JBool true);
    Prop_ "httpAgentOptions" (obj [Prop_ "keepAlive" (JBool true)]);
    Prop_ "onDemandEntries"
      (obj [Prop_ "maxInactiveAge"
              (JNum ((if NEXT_BUILD_ENV_CI be then 3600 else 25) * 1000))]);
    Prop_ "swcMinify" (JBool true);
    Prop_ "compiler" (obj []);
    Prop_ "sentry"
      (obj [ Prop_ "hideSourceMaps" (JBool true);
             Prop_ "autoInstrumentServerFunctions" (JBool false) ]);
    Prop_ "images" images;
    Prop_ "transpilePackages" (if isProd h then strs ["ofetch"] else strs []);
    Prop_ "modularizeImports" modularizeImports;
    Spread (if String.eqb (NEXT_BUILD_ENV_OUTPUT be) "standalone"
            then obj [ Prop_ "output" (JStr "standalone");
                       Prop_ "outputFileTracing" (JBool true) ]
            else obj []);
    Prop_ "experimental"
      (obj [ Spread (if String.eqb (NEXT_BUILD_ENV_OUTPUT be) "standalone"
                     then obj [Prop_ "outputFileTracingRoot" (JStr (workspaceRoot h))]
                     else obj []);
             Prop_ "esmExternals" (JBool true);
             Prop_ "externalDir" (JBool true) ]);
    Prop_ "typescript"
      (obj [ Prop_ "ignoreBuildErrors" (JBool (negb (NEXT_BUILD_ENV_TYPECHECK be)));
             Prop_ "tsconfigPath" (JStr (NEXT_BUILD_ENV_TSCONFIG be)) ]);
    Prop_ "eslint"
      (obj [Prop_ "ignoreDuringBuilds" (JBool (negb (NEXT_BUILD_ENV_LINT be)))]);
    Prop_ "headers"
      (JFun "headers"
         [("secureHeaders", JArr (map js_of_header (secureHeaders be h)))]);
    Prop_ "rewrites" (JFun "rewrites" []);
    Prop_ "webpack"
      (JFun "webpack"
         [ ("buildEnv.NEXT_BUILD_ENV_SENTRY_DEBUG",
            JBool (NEXT_BUILD_ENV_SENTRY_DEBUG be));
           ("buildEnv.NEXT_BUILD_ENV_SENTRY_TRACING",
            JBool (NEXT_BUILD_ENV_SENTRY_TRACING be));
           ("isProd", JBool (isProd h)) ]);
    Prop_ "env"
      (obj [ Prop_ "APP_NAME"
               (nullish (get "name" (packageJson h)) (JStr "not-in-package.json"));
             Prop_ "APP_VERSION"
               (nullish (get "version" (packageJson h)) (JStr "not-in-package.json"));
             Prop_ "BUILD_TIME" (JStr (now h)) ])
  ].

Definition sentryWebpackPluginOptions (be : BuildEnv) : JsValue :=
  obj [ Prop_ "dryRun" (JBool (NEXT_BUILD_ENV_SENTRY_UPLOAD_DRY_RUN be));
        Prop_ "silent" (JBool (negb (NEXT_BUILD_ENV_SENTRY_DEBUG be))) ].

(** [let config = nextConfig; if (...) {...} else {...}; if (ANALYZE) {...}]:
    the value of [config] at [export default]. *)
Definition config (be : BuildEnv) (h : Host) : JsValue :=
  let config0 := nextConfig be h in
  let config1 :=
    if NEXT_BUILD_ENV_SENTRY_ENABLED be
    then withSentryConfig config0 (sentryWebpackPluginOptions be)
    else JObj (omit "sentry" (own_fields config0)) in
  if bool_decide (process_env h !! "ANALYZE" = Some "true")
  then withBundleAnalyzer (obj [Prop_ "enabled" (JBool true)]) config1
  else config1.

End NextConfig.

(** ** Module state and the [headers()] method *)

(** The module-level bindings a later call can observe, and the console. *)
Record ModuleState := {
  st_secureHeaders : list Header;
  st_config : JsValue;
  st_console : list string
}.

Definition Eff (A : Type) : Type := ModuleState -> A * ModuleState.

Definition ret {A} (a : A) : Eff A := fun s => (a, s).

Definition bind {A B} (m : Eff A) (f : A -> Eff B) : Eff B :=
  fun s => let (a, s') := m s in f a s'.

Notation "x <- m ;; k" := (bind m (fun x => k))
  (at level 100, m at next level, right associativity).

Definition read_secureHeaders : Eff (list Header) :=
  fun s => (st_secureHeaders s, s).

Definition console_log (msg : string) : Eff unit :=
  fun s => (tt, {| st_secureHeaders := st_secureHeaders s;
                   st_config := st_config s;
                   st_console := st_console s ++ [msg] |}).

(** [const secureHeaders = ...] *)
Definition define_secureHeaders (l : list Header) : Eff unit :=
  fun s => (tt, {| st_secureHeaders := l;
                   st_config := st_config s;
                   st_console := st_console s |}).

(** [export default config] *)
Definition export_default (c : JsValue) : Eff unit :=
  fun s => (tt, {| st_secureHeaders := st_secureHeaders s;
                   st_config := c;
                   st_console := st_console s |}).

(** A module that has not run yet. *)
Definition unloaded : ModuleState :=
  {| st_secureHeaders := []; st_config := JUndefined; st_console := [] |}.

(** One entry of the array [headers()] resolves to. *)
Record HeaderRule := { source : string; rule_headers : list Header }.

Definition headers : Eff (list HeaderRule) :=
  secureHeaders <- read_secureHeaders ;;
  ret [ {| source := "/:path((?!api).*)*";
           rule_headers :=
             secureHeaders ++
             [ {| key := "Cross-Origin-Opener-Policy"; value := "same-origin" |};
               {| key := "Cross-Origin-Embedder-Policy"; value := "same-origin" |} ] |} ].

Section Startup.
Context `{Packages} `{EnvModules}.

(** The module body, statement by statement, given the validated flags. *)
Definition body (be : BuildEnv) (h : Host) : Eff unit :=
  _ <- (if negb (NEXT_BUILD_ENV_SOURCEMAPS be)
        then console_log sourcemapsNotice
        else ret tt) ;;
  _ <- define_secureHeaders (secureHeaders be h) ;;
  export_default (config be h).

(** The state the module body leaves behind. *)
Definition evaluate (be : BuildEnv) (h : Host) : ModuleState :=
  snd (body be h unloaded).

(** Loading the module: the imports are evaluated first, then line 18
    validates the server environment, then the body runs. A throw at any
    point leaves no module at all. *)
Definition startup (h : Host) : StartupError + ModuleState :=
  match importBuildEnv (process_env h) with
  | inl e => inl e
  | inr be =>
      match getServerRuntimeEnv (process_env h) with
      | inl e => inl e
      | inr _serverEnv => inr (evaluate be h)
      end
  end.

(** The Header Policy Builder: what [headers()] returns on the loaded module. *)
Definition headerRules (be : BuildEnv) (h : Host) : list HeaderRule :=
  fst (headers (evaluate be h)).

Definition headerList (be : BuildEnv) (h : Host) : list Header :=
  concat (map rule_headers (headerRules be h)).

End Startup.

(** ** Reference packages

    An instance of [Packages] that follows the published behaviour of the
    imported packages, for running the configuration on concrete inputs.
    The general results below hold for every instance. *)

Module Reference.

Definition decimal (n : Z) : string :=
  NilZero.string_of_uint (N.to_uint (Z.to_N n)).

Fixpoint join (sep : string) (l : list string) : string :=
  match l with
  | [] => ""
  | [x] => x
  | x :: rest => x ++ sep ++ join sep rest
  end.

(** next-secure-headers: the names of the fetch directives. *)
Definition directiveName (k : string) : option string :=
  snd <$> List.find (fun kv => String.eqb k (fst kv))
    [ ("childSrc", "child-src"); ("connectSrc", "connect-src");
      ("defaultSrc", "default-src"); ("fontSrc", "font-src");
      ("frameSrc", "frame-src"); ("imgSrc", "img-src");
      ("manifestSrc", "manifest-src"); ("mediaSrc", "media-src");
      ("prefetchSrc", "prefetch-src"); ("objectSrc", "object-src");
      ("scriptSrc", "script-src"); ("scriptSrcElem", "script-src-elem");
      ("scriptSrcAttr", "script-src-attr"); ("styleSrc", "style-src");
      ("styleSrcElem", "style-src-elem"); ("styleSrcAttr", "style-src-attr");
      ("workerSrc", "worker-src") ].

Definition directiveSources (v : DirectiveValue) : list string :=
  match v with
  | One s => [s]
  | Many l => l
  end.

Definition directiveString (d : string * DirectiveValue) : option string :=
  match directiveName (fst d) with
  | Some name => Some (name ++ " " ++ join " " (directiveSources (snd d)))
  | None => None
  end.

Definition contentSecurityPolicyValue (o : ContentSecurityPolicyOption) : string :=
  join "; " (omap directiveString (directives o)).

Definition strictTransportSecurityValue (o : option (bool * HstsOptions)) : option string :=
  match o with
  | None => Some "max-age=63072000"
  | Some (false, _) => None
  | Some (true, hsts) =>
      Some ("max-age=" ++ decimal (maxAge hsts) ++
            (if includeSubDomains hsts then "; includeSubDomains" else ""))
  end.

Definition header (name : string) (v : option string) : list Header :=
  match v with
  | Some s => [ {| key := name; value := s |} ]
  | None => []
  end.

(** One header per rule, in the package's order; the rules this
    configuration leaves unset contribute their defaults. *)
Definition createSecureHeaders (o : SecureHeadersOptions) : list Header :=
  header "Content-Security-Policy"
    (contentSecurityPolicyValue <$> contentSecurityPolicy o) ++
  header "Strict-Transport-Security"
    (strictTransportSecurityValue (forceHTTPSRedirect o)) ++
  header "X-Frame-Options" (Some "deny") ++
  header "X-Download-Options" (Some "noopen") ++
  header "X-Content-Type-Options" (Some "nosniff") ++
  header "Referrer-Policy" (referrerPolicy o) ++
  header "X-XSS-Protection" (Some "1").

(** @sentry/nextjs: the user's configuration without its [sentry] key and
    with the webpack function wrapped. *)
Definition withSentryConfig (userNextConfig webpackPluginOptions : JsValue) : JsValue :=
  JObj (assign "webpack"
          (JFun "sentry.webpack"
             [ ("userNextConfig", userNextConfig);
               ("webpackPluginOptions", webpackPluginOptions) ])
          (omit "sentry" (own_fields userNextConfig))).

(** @next/bundle-analyzer: the configuration with the webpack function
    wrapped, unless the analyzer is disabled. *)
Definition withBundleAnalyzer (options nextConfig : JsValue) : JsValue :=
  match get "enabled" options with
  | JBool false => nextConfig
  | _ =>
      JObj (assign "webpack"
              (JFun "bundleAnalyzer.webpack" [("nextConfig", nextConfig)])
              (own_fields nextConfig))
  end.

(** Paths neither wrapper writes to: non-empty, not under [sentry] or
    [webpack]. *)
Definition untouched (p : list string) : bool :=
  match p with
  | [] => false
  | k :: _ => negb (String.eqb k "sentry") && negb (String.eqb k "webpack")
  end.

(** Paths that stay filled: the untouched ones and the [webpack] key. *)
Definition kept (p : list string) : bool :=
  match p with
  | [k] => negb (String.eqb k "sentry")
  | _ => untouched p
  end.

Definition packages : Packages :=
  Build_Packages createSecureHeaders withSentryConfig withBundleAnalyzer
    (fun s => s).

End Reference.

(** ** The route pattern of [headers()]

    The host framework compiles a [source] with path-to-regexp and tests
    the request path against the result. The source of the rule is one
    repeatable parameter [path] with a pattern of its own, a negative
    look-ahead for "api" followed by any characters. With the delimiter "/"
    it compiles to: start of input; optionally a slash, the parameter
    pattern and any number of further slash-and-pattern pairs; an optional
    trailing slash; end of input. Letter case is ignored unless the host
    asks for case-sensitive routes. *)

Module PathMatch.

Inductive Re : Type :=
| Chr (c : ascii)          (* a literal character *)
| Dot                      (* any character but a line terminator *)
| Cat (r1 r2 : Re)
| Opt (r : Re)             (* r? *)
| Star (r : Re)            (* r*, greedy *)
| NotAhead (r : Re)        (* negative look-ahead *)
| End_.                    (* $ *)

Definition lower (c : ascii) : ascii :=
  let n := nat_of_ascii c in
  if ((65 <=? n) && (n <=? 90))%nat then ascii_of_nat (n + 32) else c.

Definition same (sensitive : bool) (c c' : ascii) : bool :=
  if sensitive then Ascii.eqb c c' else Ascii.eqb (lower c) (lower c').

Definition line_terminator (c : ascii) : bool :=
  Ascii.eqb c "010" || Ascii.eqb c "013".

(** Zero or more rounds of [body], greedy, with backtracking. A round that
    consumes nothing is cut, so [n] rounds suffice on an input of at most
    [n] characters. *)
Fixpoint star (body : string -> (string -> bool) -> bool) (n : nat)
    (s : string) (k : string -> bool) : bool :=
  match n with
  | O => k s
  | S n' =>
      body s (fun s' =>
                (String.length s' <? String.length s)%nat && star body n' s' k)
      || k s
  end.

(** Backtracking matcher in continuation style: does [r] match a prefix
    of [s] such that [k] accepts the rest? *)
Fixpoint run (sensitive : bool) (fuel : nat) (r : Re) (s : string)
    (k : string -> bool) {struct r} : bool :=
  match r with
  | Chr c =>
      match s with
      | String c' s' => same sensitive c c' && k s'
      | EmptyString => false
      end
  | Dot =>
      match s with
      | String c' s' => negb (line_terminator c') && k s'
      | EmptyString => false
      end
  | Cat r1 r2 => run sensitive fuel r1 s (fun s' => run sensitive fuel r2 s' k)
  | Opt r1 => run sensitive fuel r1 s k || k s
  | Star r1 => star (fun s' k' => run sensitive fuel r1 s' k') fuel s k
  | NotAhead r1 => negb (run sensitive fuel r1 s (fun _ => true)) && k s
  | End_ =>
      match s with
      | EmptyString => k s
      | String _ _ => false
      end
  end.

(** [regexp.test(s)] for an expression anchored at the start. *)
Definition test (sensitive : bool) (r : Re) (s : string) : bool :=
  run sensitive (String.length s) r s (fun _ => true).

Fixpoint lit (s : string) : Re :=
  match s with
  | EmptyString => Opt End_
  | String c EmptyString => Chr c
  | String c rest => Cat (Chr c) (lit rest)
  end.

(** The parameter's own pattern: not followed by "api", then anything. *)
Definition pathParam : Re := Cat (NotAhead (lit "api")) (Star Dot).

Definition compiled : Re :=
  Cat (Opt (Cat (Chr "/") (Cat pathParam (Star (Cat (Chr "/") pathParam)))))
      (Cat (Opt (Chr "/")) End_).

(** Does the rule of [headers()] apply to a request path? [sensitive] is
    the host's case-sensitivity option. *)
Definition source_matches (sensitive : bool) (path : string) : bool :=
  test sensitive compiled path.

(** [s] begins with [pre], up to letter case unless [sensitive]. *)
Fixpoint begins (sensitive : bool) (pre s : string) : bool :=
  match pre, s with
  | EmptyString, _ => true
  | String a pre', String b s' => same sensitive a b && begins sensitive pre' s'
  | String _ _, EmptyString => false
  end.

Fixpoint line_free (s : string) : bool :=
  match s with
  | EmptyString => true
  | String c s' => negb (line_terminator c) && line_free s'
  end.

(** API routes are the files under [pages/api]: [/api] and [/api/...]. *)
Definition is_api_route (path : string) : bool :=
  String.eqb path "/api" || begins true "/api/" path.

End PathMatch.

(** ** Environment validation *)

Module EnvSchema.

(** Modelled from the spec: ./src/config/build-env.config.mjs and
    ./src/config/server-runtime-env.config.mjs are not among the sources.
    Each flag is boolean or string valued, some are required; a required
    flag that is missing, or a flag whose value is malformed, aborts
    startup with an error that names the flag. *)
Record FlagRule := {
  flagName : string;
  required : bool;
  wellFormed : string -> bool
}.

(** Modelled from the spec: a flag offends when it is required and missing,
    or present and malformed. *)
Definition offending (raw : gmap string string) (r : FlagRule) : bool :=
  match raw !! flagName r with
  | None => required r
  | Some v => negb (wellFormed r v)
  end.

(** Modelled from the spec: validation fails fast on the first offending
    flag of the schema. *)
Definition validate (schema : list FlagRule) (raw : gmap string string)
  : StartupError + unit :=
  match List.find (offending raw) schema with
  | Some r => inl (InvalidEnv (flagName r))
  | None => inr tt
  end.

(** Modelled from the spec: the two environment modules, each validating
    its own schema before handing out values; [decode] reads the validated
    build flags. *)
Definition modules (buildSchema serverSchema : list FlagRule)
    (decode : gmap string string -> BuildEnv) : EnvModules :=
  {| importBuildEnv := fun raw =>
       match validate buildSchema raw with
       | inl e => inl e
       | inr _ => inr (decode raw)
       end;
     getServerRuntimeEnv := fun raw =>
       match validate serverSchema raw with
       | inl e => inl e
       | inr _ => inr (JObj [])
       end |}.

End EnvSchema.

(** ** Vocabulary of the statements *)

(** The flags of [buildEnv], and agreement of two environments on one. *)
Inductive Flag :=
| SOURCEMAPS | CSP | CI | OUTPUT | TYPECHECK | TSCONFIG | LINT
| SENTRY_ENABLED | SENTRY_DEBUG | SENTRY_TRACING | SENTRY_UPLOAD_DRY_RUN.

Definition agree_on (f : Flag) (be1 be2 : BuildEnv) : Prop :=
  match f with
  | SOURCEMAPS => NEXT_BUILD_ENV_SOURCEMAPS be1 = NEXT_BUILD_ENV_SOURCEMAPS be2
  | CSP => NEXT_BUILD_ENV_CSP be1 = NEXT_BUILD_ENV_CSP be2
  | CI => NEXT_BUILD_ENV_CI be1 = NEXT_BUILD_ENV_CI be2
  | OUTPUT => NEXT_BUILD_ENV_OUTPUT be1 = NEXT_BUILD_ENV_OUTPUT be2
  | TYPECHECK => NEXT_BUILD_ENV_TYPECHECK be1 = NEXT_BUILD_ENV_TYPECHECK be2
  | TSCONFIG => NEXT_BUILD_ENV_TSCONFIG be1 = NEXT_BUILD_ENV_TSCONFIG be2
  | LINT => NEXT_BUILD_ENV_LINT be1 = NEXT_BUILD_ENV_LINT be2
  | SENTRY_ENABLED =>
      NEXT_BUILD_ENV_SENTRY_ENABLED be1 = NEXT_BUILD_ENV_SENTRY_ENABLED be2
  | SENTRY_DEBUG =>
      NEXT_BUILD_ENV_SENTRY_DEBUG be1 = NEXT_BUILD_ENV_SENTRY_DEBUG be2
  | SENTRY_TRACING =>
      NEXT_BUILD_ENV_SENTRY_TRACING be1 = NEXT_BUILD_ENV_SENTRY_TRACING be2
  | SENTRY_UPLOAD_DRY_RUN =>
      NEXT_BUILD_ENV_SENTRY_UPLOAD_DRY_RUN be1
      = NEXT_BUILD_ENV_SENTRY_UPLOAD_DRY_RUN be2
  end.

(** The flags the expression of each top-level key of [nextConfig] reads. *)
Definition reads (k : string) : list Flag :=
  if String.eqb k "productionBrowserSourceMaps" then [SOURCEMAPS]
  else if String.eqb k "onDemandEntries" then [CI]
  else if String.eqb k "output" then [OUTPUT]
  else if String.eqb k "outputFileTracing" then [OUTPUT]
  else if String.eqb k "experimental" then [OUTPUT]
  else if String.eqb k "typescript" then [TYPECHECK; TSCONFIG]
  else if String.eqb k "eslint" then [LINT]
  else if String.eqb k "headers" then [CSP]
  else if String.eqb k "webpack" then [SENTRY_DEBUG; SENTRY_TRACING]
  else [].

(** [buildEnv] with the telemetry flag set to [b], everything else kept. *)
Definition with_sentry_enabled (b : bool) (be : BuildEnv) : BuildEnv :=
  {| NEXT_BUILD_ENV_SOURCEMAPS := NEXT_BUILD_ENV_SOURCEMAPS be;
     NEXT_BUILD_ENV_CSP := NEXT_BUILD_ENV_CSP be;
     NEXT_BUILD_ENV_CI := NEXT_BUILD_ENV_CI be;
     NEXT_BUILD_ENV_OUTPUT := NEXT_BUILD_ENV_OUTPUT be;
     NEXT_BUILD_ENV_TYPECHECK := NEXT_BUILD_ENV_TYPECHECK be;
     NEXT_BUILD_ENV_TSCONFIG := NEXT_BUILD_ENV_TSCONFIG be;
     NEXT_BUILD_ENV_LINT := NEXT_BUILD_ENV_LINT be;
     NEXT_BUILD_ENV_SENTRY_ENABLED := b;
     NEXT_BUILD_ENV_SENTRY_DEBUG := NEXT_BUILD_ENV_SENTRY_DEBUG be;
     NEXT_BUILD_ENV_SENTRY_TRACING := NEXT_BUILD_ENV_SENTRY_TRACING be;
     NEXT_BUILD_ENV_SENTRY_UPLOAD_DRY_RUN :=
       NEXT_BUILD_ENV_SENTRY_UPLOAD_DRY_RUN be |}.

(** A wrapper leaves what is stored under the given paths as it found it. *)
Definition preserves (w : JsValue -> JsValue) (paths : list (list string)) : Prop :=
  forall p c, In p paths -> lookup_path p (w c) = lookup_path p c.

(** A wrapper drops nothing that was stored under the given paths. *)
Definition keeps (w : JsValue -> JsValue) (paths : list (list string)) : Prop :=
  forall p c, In p paths -> is_Some (lookup_path p c) -> is_Some (lookup_path p (w c)).

Section Contracts.
Context `{Packages}.

Definition wrappers_preserve (paths : list (list string)) : Prop :=
  (forall o, preserves (fun c => withSentryConfig c o) paths)
  /\ (forall o, preserves (withBundleAnalyzer o) paths).

Definition wrappers_keep (paths : list (list string)) : Prop :=
  (forall o, keeps (fun c => withSentryConfig c o) paths)
  /\ (forall o, keeps (withBundleAnalyzer o) paths).

(** [createSecureHeaders] answers a content-security-policy option that
    has directives with a Content-Security-Policy header carrying their
    rendering. *)
Definition emits_csp (render : ContentSecurityPolicyOption -> string) : Prop :=
  forall o csp,
    contentSecurityPolicy o = Some csp ->
    directives csp <> [] ->
    In {| key := "Content-Security-Policy"; value := render csp |}
       (createSecureHeaders o).

(** [createSecureHeaders] answers a referrer-policy option with a
    Referrer-Policy header of that value. *)
Definition emits_referrer_policy : Prop :=
  forall o p,
    referrerPolicy o = Some p ->
    In {| key := "Referrer-Policy"; value := p |} (createSecureHeaders o).

End Contracts.

(** The paths the [nextConfig] literal fills whatever the flags are, the
    [sentry] section apart (line 337 takes it out when telemetry is off). *)
Definition requiredPaths : list (list string) :=
  [ ["reactStrictMode"]; ["productionBrowserSourceMaps"]; ["i18n"];
    ["optimizeFonts"]; ["httpAgentOptions"; "keepAlive"];
    ["onDemandEntries"; "maxInactiveAge"]; ["swcMinify"]; ["compiler"];
    ["images"; "deviceSizes"]; ["images"; "imageSizes"];
    ["images"; "minimumCacheTTL"]; ["images"; "formats"]; ["images"; "loader"];
    ["images"; "dangerouslyAllowSVG"]; ["images"; "disableStaticImages"];
    ["images"; "contentSecurityPolicy"]; ["images"; "remotePatterns"];
    ["images"; "unoptimized"]; ["transpilePackages"];
    ["modularizeImports"; "@mui/material"; "transform"];
    ["modularizeImports"; "@mui/icons-material"; "transform"];
    ["modularizeImports"; "@mui/styles"; "transform"];
    ["experimental"; "esmExternals"]; ["experimental"; "externalDir"];
    ["typescript"; "ignoreBuildErrors"]; ["typescript"; "tsconfigPath"];
    ["eslint"; "ignoreDuringBuilds"]; ["headers"]; ["rewrites"]; ["webpack"];
    ["env"; "APP_NAME"]; ["env"; "APP_VERSION"]; ["env"; "BUILD_TIME"] ].

Definition standalonePaths : list (list string) :=
  [ ["output"]; ["outputFileTracing"]; ["experimental"; "outputFileTracingRoot"] ].

Definition coop : Header :=
  {| key := "Cross-Origin-Opener-Policy"; value := "same-origin" |}.
Definition coep : Header :=
  {| key := "Cross-Origin-Embedder-Policy"; value := "same-origin" |}.

(** ** Sample inputs *)

Module Sample.

Definition buildEnv (csp sentry : bool) (output : string) : BuildEnv :=
  {| NEXT_BUILD_ENV_SOURCEMAPS := true;
     NEXT_BUILD_ENV_CSP := csp;
     NEXT_BUILD_ENV_CI := false;
     NEXT_BUILD_ENV_OUTPUT := output;
     NEXT_BUILD_ENV_TYPECHECK := true;
     NEXT_BUILD_ENV_TSCONFIG := "./tsconfig.json";
     NEXT_BUILD_ENV_LINT := true;
     NEXT_BUILD_ENV_SENTRY_ENABLED := sentry;
     NEXT_BUILD_ENV_SENTRY_DEBUG := false;
     NEXT_BUILD_ENV_SENTRY_TRACING := false;
     NEXT_BUILD_ENV_SENTRY_UPLOAD_DRY_RUN := false |}.

Definition host (vars : list (string * string)) (manifest : JsValue) : Host :=
  {| process_env := list_to_map vars;
     packageJson := manifest;
     nextI18nConfig :=
       obj [Prop_ "i18n" (obj [ Prop_ "defaultLocale" (JStr "en");
                                Prop_ "locales" (strs ["en"; "fr"]) ])];
     workspaceRoot := "/workspace";
     now := "2023-06-01T00:00:00.000Z" |}.

Definition manifest : JsValue :=
  obj [Prop_ "name" (JStr "web-app"); Prop_ "version" (JStr "1.0.0")].

Definition production : Host := host [("NODE_ENV", "production")] manifest.
Definition development : Host := host [("NODE_ENV", "development")] manifest.
Definition analyzed : Host :=
  host [("NODE_ENV", "production"); ("ANALYZE", "true")] manifest.

(** A host whose environment passes validation and whose manifest has
    neither a name nor a version. *)
Definition unnamed : Host :=
  host [("DATABASE_URL", "postgres://db"); ("NODE_ENV", "production")] (obj []).

(** The same environment without the required DATABASE_URL. *)
Definition unconfigured : Host := host [("NODE_ENV", "production")] manifest.

(** A schema with one required boolean flag and one optional one. *)
Definition boolean (v : string) : bool :=
  String.eqb v "true" || String.eqb v "false".

Definition buildSchema : list EnvSchema.FlagRule :=
  [ {| EnvSchema.flagName := "NEXT_BUILD_ENV_CSP";
       EnvSchema.required := false; EnvSchema.wellFormed := boolean |} ].

Definition databaseUrl : EnvSchema.FlagRule :=
  {| EnvSchema.flagName := "DATABASE_URL";
     EnvSchema.required := true;
     EnvSchema.wellFormed := fun v => negb (String.eqb v "") |}.

Definition serverSchema : list EnvSchema.FlagRule := [databaseUrl].

Definition decode (raw : gmap string string) : BuildEnv :=
  buildEnv (bool_decide (raw !! "NEXT_BUILD_ENV_CSP" = Some "true")) false "classic".

Definition envModules : EnvModules :=
  EnvSchema.modules buildSchema serverSchema decode.

(** A loaded module: strict policy on, telemetry off, production. *)
Definition moduleState : ModuleState :=
  @evaluate Reference.packages (buildEnv true false "classic") production.

End Sample.

(** ** The [webpack] hook of the configuration (lines 274-312)

    The hook receives the bundler's configuration object and mutates it in
    place: a [fs] fallback for client builds, two plugins, one rule for
    SVG files. Values are trees here, so a mutation of [config.plugins] is
    written back under [config]. The module is an ES module, hence strict
    mode: a property write on a primitive throws. *)

Module Hook.

(** How a call ends. [Outside] marks the runs that leave the fragment of
    JavaScript modelled here: a property write on an array or function
    value, the spread of a string or an array (indices become keys), and
    a call to a [push] the configuration object brought itself. *)
Inductive Outcome (A : Type) : Type :=
| Returned (a : A)
| TypeError
| Outside.
Arguments Returned {A} a.
Arguments TypeError {A}.
Arguments Outside {A}.

Definition andThen {A B : Type} (m : Outcome A) (f : A -> Outcome B) : Outcome B :=
  match m with
  | Returned a => f a
  | TypeError => TypeError
  | Outside => Outside
  end.

Notation "x <~ m ;; k" := (andThen m (fun x => k))
  (at level 100, m at next level, right associativity).

(** What the hook constructs but does not define: [new
    webpack.DefinePlugin(definitions)], [new PrismaPlugin()] and regular
    expression literals. *)
Class WebpackHost := {
  DefinePlugin : JsValue -> JsValue;
  PrismaPlugin : JsValue;
  regExp : string -> JsValue
}.

(** [v.k] for a name no built-in prototype defines. *)
Definition read (k : string) (v : JsValue) : Outcome JsValue :=
  match v with
  | JUndefined | JNull => TypeError
  | _ => Returned (get k v)
  end.

(** [v.k = x] in strict mode. *)
Definition write (k : string) (x v : JsValue) : Outcome JsValue :=
  match v with
  | JObj o => Returned (JObj (assign k x o))
  | JArr _ | JFun _ _ => Outside
  | _ => TypeError
  end.

(** [v.push(x)] *)
Definition push (x v : JsValue) : Outcome JsValue :=
  match v with
  | JArr items => Returned (JArr (items ++ [x]))
  | JObj o =>
      match assoc "push" o with
      | Some (JFun _ _) => Outside
      | _ => TypeError
      end
  | _ => TypeError
  end.

(** The parent sees the mutated child. *)
Definition update (k : string) (x v : JsValue) : JsValue :=
  match v with
  | JObj o => JObj (assign k x o)
  | _ => v
  end.

(** [{ ...fallback, fs: false }] *)
Definition with_fs_false (fallback : JsValue) : Outcome JsValue :=
  match fallback with
  | JStr _ | JArr _ => Outside
  | _ => Returned (obj [Spread fallback; Prop_ "fs" (JBool false)])
  end.

Section Hook.
Context `{WebpackHost}.

Definition sentryDefinitions (be : BuildEnv) : JsValue :=
  obj [ Prop_ "__SENTRY_DEBUG__" (JBool (NEXT_BUILD_ENV_SENTRY_DEBUG be));
        Prop_ "__SENTRY_TRACING__" (JBool (NEXT_BUILD_ENV_SENTRY_TRACING be)) ].

Definition svgRule (h : Host) : JsValue :=
  obj [ Prop_ "test" (regExp "\.svg$");
        Prop_ "issuer" (regExp "\.(js|ts)x?$");
        Prop_ "use"
          (JArr [ obj [ Prop_ "loader" (JStr "@svgr/webpack");
                        Prop_ "options" (obj [Prop_ "svgo" (JBool (isProd h))]) ] ]) ].

(** [config.resolve.fallback = { ...config.resolve.fallback, fs: false }] *)
Definition set_fallback (config : JsValue) : Outcome JsValue :=
  resolve <~ read "resolve" config ;;
  fallback <~ read "fallback" resolve ;;
  fallback' <~ with_fs_false fallback ;;
  resolve' <~ write "fallback" fallback' resolve ;;
  Returned (update "resolve" resolve' config).

(** [config.plugins.push(x)] *)
Definition push_plugin (x config : JsValue) : Outcome JsValue :=
  plugins <~ read "plugins" config ;;
  plugins' <~ push x plugins ;;
  Returned (update "plugins" plugins' config).

(** [config.module.rules.push(x)] *)
Definition push_rule (x config : JsValue) : Outcome JsValue :=
  module_ <~ read "module" config ;;
  rules <~ read "rules" module_ ;;
  rules' <~ push x rules ;;
  Returned (update "module" (update "rules" rules' module_) config).

Definition webpack (be : BuildEnv) (h : Host) (config : JsValue) (isServer : bool)
  : Outcome JsValue :=
  config <~ (if negb isServer then set_fallback config else Returned config) ;;
  config <~ push_plugin (DefinePlugin (sentryDefinitions be)) config ;;
  config <~ (if isServer then push_plugin PrismaPlugin config else Returned config) ;;
  config <~ push_rule (svgRule h) config ;;
  Returned config.

(** The plugins one call adds, in order. *)
Definition addedPlugins (be : BuildEnv) (isServer : bool) : list JsValue :=
  DefinePlugin (sentryDefinitions be) :: (if isServer then [PrismaPlugin] else []).

End Hook.



(** Values whose spread is modelled: anything but a string or an array. *)
Definition plain (v : JsValue) : bool :=
  match v with JStr _ | JArr _ => false | _ => true end.


(** The fields of the configuration once the client-only step is done:
    as they were on a server build, with [resolve.fallback] rebuilt on a
    client build. *)
Definition after_fallback (isServer : bool) (fields base : Fields) : Prop :=
  if isServer then base = fields
  else exists rfields,
      assoc "resolve" fields = Some (JObj rfields)
      /\ plain (get "fallback" (JObj rfields)) = true
      /\ base = assign "resolve"
                  (JObj (assign "fallback"
                           (obj [ Spread (get "fallback" (JObj rfields));
                                  Prop_ "fs" (JBool false) ])
                           rfields))
                  fields.

(** A stand-in for the host's constructors, and a configuration of the
    kind the bundler hands over. *)
Definition sampleHost : WebpackHost :=
  {| DefinePlugin := fun definitions =>
       obj [Prop_ "plugin" (JStr "DefinePlugin"); Prop_ "definitions" definitions];
     PrismaPlugin := obj [Prop_ "plugin" (JStr "PrismaPlugin")];
     regExp := fun source_ => obj [Prop_ "regexp" (JStr source_)] |}.

Definition sampleConfig : JsValue :=
  obj [ Prop_ "mode" (JStr "production");
        Prop_ "resolve"
          (obj [ Prop_ "extensions" (strs [".js"; ".tsx"]);
                 Prop_ "fallback" (obj [Prop_ "process" (JStr "process/browser")]) ]);
        Prop_ "plugins" (JArr [obj [Prop_ "plugin" (JStr "ProfilingPlugin")]]);
        Prop_ "module"
          (obj [ Prop_ "strictExportPresence" (JBool true);
                 Prop_ "rules" (JArr [obj [Prop_ "loader" (JStr "next-swc-loader")]]) ]) ].

(** The same without a [resolve] section. *)
Definition sampleServerConfig : JsValue :=
  JObj (omit "resolve" (own_fields sampleConfig)).

(** What the hook leaves of [sampleConfig] on a client build in production. *)
Definition sampleClientResult : JsValue :=
  match @webpack sampleHost (Sample.buildEnv true true "classic")
          Sample.production sampleConfig false with
  | Returned c => c
  | _ => JUndefined
  end.

End Hook.

(** ** More vocabulary and inputs *)

(** The values [??] replaces. *)
Definition is_nullish (v : JsValue) : bool :=
  match v with
  | JUndefined | JNull => true
  | _ => false
  end.

Module Edge.

(** A manifest with an empty name and a [null] version. *)
Definition oddManifest : Host :=
  Sample.host [("NODE_ENV", "production")]
    (obj [Prop_ "name" (JStr ""); Prop_ "version" JNull]).

End Edge.

(** * Results *)

(** ** Objects *)

Lemma assoc_omit_ne (k k' : string) (o : Fields) :
  k <> k' -> assoc k (omit k' o) = assoc k o.
Proof.
  intros Hne. induction o as [|[k0 v] o IH]; simpl; [reflexivity|].
  destruct (String.eqb_spec k' k0) as [->|Hk0].
  - rewrite IH. destruct (String.eqb_spec k k0); [contradiction|reflexivity].
  - simpl. rewrite IH. reflexivity.
Qed.

Lemma assoc_omit_eq (k : string) (o : Fields) : assoc k (omit k o) = None.
Proof.
  induction o as [|[k0 v] o IH]; simpl; [reflexivity|].
  destruct (String.eqb_spec k k0) as [->|Hk0]; [exact IH|].
  simpl. destruct (String.eqb_spec k k0); [contradiction|exact IH].
Qed.

(** Taking [sentry] out of an object changes no path that starts elsewhere. *)
Lemma lookup_path_omit (k0 : string) (p : list string) (c : JsValue) :
  hd_error p <> Some k0 -> p <> [] ->
  lookup_path p (JObj (omit k0 (own_fields c))) = lookup_path p c.
Proof.
  destruct p as [|k p]; [congruence|]. intros Hk _. simpl.
  unfold member. simpl. rewrite assoc_omit_ne; [reflexivity|].
  intros ->. apply Hk. reflexivity.
Qed.

(** ** The exported configuration against [nextConfig] *)

Section Frame.
Context `{Packages}.

(** Along the paths the wrappers preserve, the exported configuration is
    [nextConfig] itself, whichever wrappers were applied. *)
Lemma config_lookup_path (be : BuildEnv) (h : Host) (paths : list (list string))
    (p : list string) :
  wrappers_preserve paths -> In p paths ->
  hd_error p <> Some "sentry" -> p <> [] ->
  lookup_path p (config be h) = lookup_path p (nextConfig be h).
Proof.
  intros [Hs Ha] Hin Hk Hne. unfold config.
  assert (Hmid :
    lookup_path p
      (if NEXT_BUILD_ENV_SENTRY_ENABLED be
       then withSentryConfig (nextConfig be h) (sentryWebpackPluginOptions be)
       else JObj (omit "sentry" (own_fields (nextConfig be h))))
    = lookup_path p (nextConfig be h)).
  { destruct (NEXT_BUILD_ENV_SENTRY_ENABLED be).
    - apply (Hs (sentryWebpackPluginOptions be) p _ Hin).
    - apply lookup_path_omit; assumption. }
  destruct (bool_decide _); [|exact Hmid].
  rewrite (Ha _ p _ Hin). exact Hmid.
Qed.

(** Likewise for presence alone. *)
Lemma config_keeps_path (be : BuildEnv) (h : Host) (paths : list (list string))
    (p : list string) :
  wrappers_keep paths -> In p paths ->
  hd_error p <> Some "sentry" -> p <> [] ->
  is_Some (lookup_path p (nextConfig be h)) ->
  is_Some (lookup_path p (config be h)).
Proof.
  intros [Hs Ha] Hin Hk Hne Hsome. unfold config.
  assert (Hmid : is_Some (lookup_path p
      (if NEXT_BUILD_ENV_SENTRY_ENABLED be
       then withSentryConfig (nextConfig be h) (sentryWebpackPluginOptions be)
       else JObj (omit "sentry" (own_fields (nextConfig be h)))))).
  { destruct (NEXT_BUILD_ENV_SENTRY_ENABLED be).
    - apply (Hs (sentryWebpackPluginOptions be) p _ Hin Hsome).
    - rewrite lookup_path_omit; assumption. }
  destruct (bool_decide _); [|exact Hmid].
  apply (Ha _ p _ Hin Hmid).
Qed.

(** What [nextConfig] stores under the standalone keys. *)
Lemma nextConfig_standalone (be : BuildEnv) (h : Host) :
  NEXT_BUILD_ENV_OUTPUT be = "standalone" ->
  lookup_path ["output"] (nextConfig be h) = Some (JStr "standalone")
  /\ lookup_path ["outputFileTracing"] (nextConfig be h) = Some (JBool true)
  /\ lookup_path ["experimental"; "outputFileTracingRoot"] (nextConfig be h)
     = Some (JStr (workspaceRoot h)).
Proof.
  intros Heq. unfold nextConfig. rewrite Heq. simpl. repeat split; reflexivity.
Qed.

Lemma nextConfig_not_standalone (be : BuildEnv) (h : Host) :
  NEXT_BUILD_ENV_OUTPUT be <> "standalone" ->
  lookup_path ["output"] (nextConfig be h) = None
  /\ lookup_path ["outputFileTracing"] (nextConfig be h) = None
  /\ lookup_path ["experimental"; "outputFileTracingRoot"] (nextConfig be h) = None.
Proof.
  intros Hne. unfold nextConfig.
  destruct (String.eqb_spec (NEXT_BUILD_ENV_OUTPUT be) "standalone");
    [contradiction|].
  repeat split; reflexivity.
Qed.

End Frame.

(** ** The reference packages meet the contracts *)

Lemma assoc_assign_ne (k k' : string) (v : JsValue) (o : Fields) :
  k <> k' -> assoc k (assign k' v o) = assoc k o.
Proof.
  intros Hne. induction o as [|[k0 v0] o IH]; simpl.
  - destruct (String.eqb_spec k k'); [contradiction|reflexivity].
  - destruct (String.eqb_spec k' k0) as [->|Hk0]; simpl.
    + destruct (String.eqb_spec k k0); [contradiction|reflexivity].
    + rewrite IH. reflexivity.
Qed.

Lemma assoc_assign_eq (k : string) (v : JsValue) (o : Fields) :
  assoc k (assign k v o) = Some v.
Proof.
  induction o as [|[k0 v0] o IH]; simpl.
  - rewrite String.eqb_refl. reflexivity.
  - destruct (String.eqb_spec k k0) as [->|Hk0]; simpl.
    + rewrite String.eqb_refl. reflexivity.
    + destruct (String.eqb_spec k k0); [contradiction|exact IH].
Qed.

Lemma untouched_head (p : list string) :
  Reference.untouched p = true ->
  exists k p', p = k :: p' /\ k <> "sentry" /\ k <> "webpack".
Proof.
  destruct p as [|k p']; simpl; [discriminate|].
  intros Hb. apply andb_true_iff in Hb as [H1 H2].
  exists k, p'. split; [reflexivity|].
  split; intros ->; discriminate.
Qed.

Lemma reference_sentry_preserves (o : JsValue) (paths : list (list string)) :
  forallb Reference.untouched paths = true ->
  preserves (fun c => Reference.withSentryConfig c o) paths.
Proof.
  intros Hall p c Hin.
  rewrite forallb_forall in Hall.
  destruct (untouched_head p (Hall p Hin)) as (k & p' & -> & Hs & Hw).
  simpl. unfold member, Reference.withSentryConfig. simpl.
  rewrite assoc_assign_ne by exact Hw.
  rewrite assoc_omit_ne by exact Hs. reflexivity.
Qed.

Lemma reference_analyzer_preserves (o : JsValue) (paths : list (list string)) :
  forallb Reference.untouched paths = true ->
  preserves (Reference.withBundleAnalyzer o) paths.
Proof.
  intros Hall p c Hin.
  rewrite forallb_forall in Hall.
  destruct (untouched_head p (Hall p Hin)) as (k & p' & -> & Hs & Hw).
  unfold Reference.withBundleAnalyzer.
  destruct (get "enabled" o) as [| |[|]| | | | |]; try reflexivity;
    simpl; unfold member; simpl; rewrite assoc_assign_ne by exact Hw;
    reflexivity.
Qed.

Lemma reference_preserve (paths : list (list string)) :
  forallb Reference.untouched paths = true ->
  @wrappers_preserve Reference.packages paths.
Proof.
  intros Hall. split; intros o.
  - apply reference_sentry_preserves, Hall.
  - apply reference_analyzer_preserves, Hall.
Qed.

Lemma kept_cases (p : list string) :
  Reference.kept p = true ->
  Reference.untouched p = true \/ p = ["webpack"].
Proof.
  destruct p as [|k [|k' p']]; simpl; intros Hb; try (left; exact Hb).
  destruct (String.eqb_spec k "webpack") as [->|Hw]; [right; reflexivity|].
  left. rewrite Hb. reflexivity.
Qed.

Lemma reference_keep (paths : list (list string)) :
  forallb Reference.kept paths = true ->
  @wrappers_keep Reference.packages paths.
Proof.
  intros Hall. rewrite forallb_forall in Hall.
  split; intros o p c Hin Hsome;
    destruct (kept_cases p (Hall p Hin)) as [Hu| ->].
  - rewrite (reference_sentry_preserves o [p]); simpl;
      [exact Hsome|rewrite Hu; reflexivity|left; reflexivity].
  - simpl. unfold member. simpl. rewrite assoc_assign_eq. eexists; reflexivity.
  - rewrite (reference_analyzer_preserves o [p]); simpl;
      [exact Hsome|rewrite Hu; reflexivity|left; reflexivity].
  - simpl. unfold Reference.withBundleAnalyzer.
    destruct (get "enabled" o) as [| |[|]| | | | |]; try exact Hsome;
      simpl; unfold member; simpl; rewrite assoc_assign_eq;
      eexists; reflexivity.
Qed.

(** ** Output mode *)

(** C4. When NEXT_BUILD_ENV_OUTPUT is 'standalone' the exported
    configuration holds [output: 'standalone'], [outputFileTracing: true]
    and [experimental.outputFileTracingRoot] (the workspace root); for every
    other value of the flag the three keys are absent. The add-on wrappers
    are assumed to leave these three paths alone. *)
Theorem standalone_keys `{Packages} (be : BuildEnv) (h : Host) :
  wrappers_preserve standalonePaths ->
  if String.eqb (NEXT_BUILD_ENV_OUTPUT be) "standalone"
  then lookup_path ["output"] (config be h) = Some (JStr "standalone")
       /\ lookup_path ["outputFileTracing"] (config be h) = Some (JBool true)
       /\ lookup_path ["experimental"; "outputFileTracingRoot"] (config be h)
          = Some (JStr (workspaceRoot h))
  else lookup_path ["output"] (config be h) = None
       /\ lookup_path ["outputFileTracing"] (config be h) = None
       /\ lookup_path ["experimental"; "outputFileTracingRoot"] (config be h)
          = None.
Proof.
  intros Hw.
  assert (Hframe : forall p, In p standalonePaths ->
            lookup_path p (config be h) = lookup_path p (nextConfig be h)).
  { intros p Hin. apply (config_lookup_path be h standalonePaths p Hw Hin);
      simpl in Hin; destruct Hin as [<-|[<-|[<-|[]]]]; simpl; congruence. }
  rewrite !Hframe by (simpl; auto).
  destruct (String.eqb_spec (NEXT_BUILD_ENV_OUTPUT be) "standalone") as [He|Hne].
  - apply nextConfig_standalone, He.
  - apply nextConfig_not_standalone, Hne.
Qed.

Lemma standalone_keys_witness :
  @wrappers_preserve Reference.packages standalonePaths
  /\ lookup_path ["output"]
       (@config Reference.packages (Sample.buildEnv true true "standalone")
          Sample.analyzed) = Some (JStr "standalone")
  /\ lookup_path ["outputFileTracing"]
       (@config Reference.packages (Sample.buildEnv true true "standalone")
          Sample.analyzed) = Some (JBool true)
  /\ lookup_path ["experimental"; "outputFileTracingRoot"]
       (@config Reference.packages (Sample.buildEnv true true "standalone")
          Sample.analyzed) = Some (JStr "/workspace").
Proof.
  split.
  - apply reference_preserve. reflexivity.
  - apply (@standalone_keys Reference.packages
             (Sample.buildEnv true true "standalone") Sample.analyzed).
    apply reference_preserve. reflexivity.
Defined.

(** ** On-demand entries *)

(** C9. [onDemandEntries.maxInactiveAge] is 3,600,000 ms when
    NEXT_BUILD_ENV_CI is set and 25,000 ms otherwise, whatever the other
    flags are. The add-on wrappers are assumed to leave that path alone. *)
Theorem maxInactiveAge_by_ci `{Packages} (be : BuildEnv) (h : Host) :
  wrappers_preserve [["onDemandEntries"; "maxInactiveAge"]] ->
  lookup_path ["onDemandEntries"; "maxInactiveAge"] (config be h)
  = Some (JNum (if NEXT_BUILD_ENV_CI be then 3600000 else 25000)).
Proof.
  intros Hw.
  rewrite (config_lookup_path be h _ _ Hw) by (simpl; auto; congruence).
  unfold nextConfig.
  destruct (NEXT_BUILD_ENV_CI be);
    destruct (String.eqb (NEXT_BUILD_ENV_OUTPUT be) "standalone"); reflexivity.
Qed.

Lemma maxInactiveAge_by_ci_witness :
  @wrappers_preserve Reference.packages [["onDemandEntries"; "maxInactiveAge"]]
  /\ lookup_path ["onDemandEntries"; "maxInactiveAge"]
       (@config Reference.packages (Sample.buildEnv true true "classic")
          Sample.production) = Some (JNum 25000).
Proof.
  split.
  - apply reference_preserve. reflexivity.
  - apply (@maxInactiveAge_by_ci Reference.packages
             (Sample.buildEnv true true "classic") Sample.production).
    apply reference_preserve. reflexivity.
Defined.

(** ** Independence of the sections *)

Ltac split_keys :=
  repeat match goal with
         | |- context [String.eqb ?x ?key] =>
             is_var x; destruct (String.eqb_spec x key) as [->|?]
         end.

Ltac use_flag Hagree f :=
  try (let A := fresh "A" in
       assert (A : agree_on f _ _) by (apply Hagree; simpl; tauto);
       simpl in A; try rewrite A in *).

(** Each top-level key of [nextConfig] depends on the flags it reads only. *)
Lemma nextConfig_member_reads `{Packages} (k : string) (be1 be2 : BuildEnv)
    (h : Host) :
  (forall f, In f (reads k) -> agree_on f be1 be2) ->
  member k (nextConfig be1 h) = member k (nextConfig be2 h).
Proof.
  intros Hagree. unfold nextConfig, member, secureHeaders, secureHeadersOptions.
  destruct (String.eqb_spec (NEXT_BUILD_ENV_OUTPUT be1) "standalone") as [E1|E1];
  destruct (String.eqb_spec (NEXT_BUILD_ENV_OUTPUT be2) "standalone") as [E2|E2];
  simpl; split_keys; try reflexivity.
  all: use_flag Hagree SOURCEMAPS; use_flag Hagree CSP; use_flag Hagree CI;
    use_flag Hagree OUTPUT; use_flag Hagree TYPECHECK;
    use_flag Hagree TSCONFIG; use_flag Hagree LINT;
    use_flag Hagree SENTRY_DEBUG; use_flag Hagree SENTRY_TRACING.
  all: try reflexivity; try congruence.
Qed.

(** C5. Sections are independent: two flag settings that agree on the flags
    the section under key [k] reads give exported configurations that agree
    on everything stored under [k], for every [k] other than the
    telemetry section [sentry] and every path the add-on wrappers leave
    alone. No section reads NEXT_BUILD_ENV_SENTRY_ENABLED, so switching
    telemetry on or off changes none of them; [images] reads no flag at
    all. *)
Theorem sections_independent `{Packages} (be1 be2 : BuildEnv) (h : Host)
    (paths : list (list string)) (k : string) (p : list string) :
  wrappers_preserve paths -> In (k :: p) paths -> k <> "sentry" ->
  (forall f, In f (reads k) -> agree_on f be1 be2) ->
  lookup_path (k :: p) (config be1 h) = lookup_path (k :: p) (config be2 h).
Proof.
  intros Hw Hin Hk Hagree.
  rewrite !(config_lookup_path _ h paths (k :: p) Hw Hin)
    by (simpl; congruence).
  simpl. rewrite (nextConfig_member_reads k be1 be2 h Hagree). reflexivity.
Qed.

Lemma sections_independent_witness :
  @wrappers_preserve Reference.packages [["images"]]
  /\ In ["images"] [["images"]]
  /\ "images" <> "sentry"
  /\ (forall f, In f (reads "images") ->
        agree_on f (Sample.buildEnv true false "classic")
                   (Sample.buildEnv true true "classic"))
  /\ lookup_path ["images"]
       (@config Reference.packages (Sample.buildEnv true false "classic")
          Sample.production)
     = lookup_path ["images"]
         (@config Reference.packages (Sample.buildEnv true true "classic")
            Sample.production).
Proof.
  assert (Hw : @wrappers_preserve Reference.packages [["images"]])
    by (apply reference_preserve; reflexivity).
  assert (Hin : In ["images"] [["images"]]) by (simpl; auto).
  assert (Hk : "images" <> "sentry") by discriminate.
  assert (Hag : forall f, In f (reads "images") ->
            agree_on f (Sample.buildEnv true false "classic")
                       (Sample.buildEnv true true "classic"))
    by (intros f []).
  exact (conj Hw (conj Hin (conj Hk (conj Hag
           (@sections_independent Reference.packages _ _ Sample.production
              [["images"]] "images" [] Hw Hin Hk Hag))))).
Defined.

(** The telemetry switch in particular: the image settings are the same
    literal with telemetry on and off. *)
Lemma images_unchanged_by_telemetry `{Packages} (be : BuildEnv) (h : Host) (b : bool) :
  wrappers_preserve [["images"]] ->
  lookup_path ["images"] (config (with_sentry_enabled b be) h) = Some images.
Proof.
  intros Hw.
  rewrite (config_lookup_path _ h _ _ Hw) by (simpl; auto; congruence).
  unfold nextConfig. simpl.
  destruct (String.eqb (NEXT_BUILD_ENV_OUTPUT be) "standalone"); reflexivity.
Qed.

(** X11. With telemetry off and no analyzer the export is [nextConfig]
    without its [sentry] key, and nothing else is touched. *)
Lemma config_plain `{Packages} (be : BuildEnv) (h : Host) (k : string) :
  NEXT_BUILD_ENV_SENTRY_ENABLED be = false ->
  process_env h !! "ANALYZE" <> Some "true" ->
  member k (config be h)
  = if String.eqb k "sentry" then None else member k (nextConfig be h).
Proof.
  intros Hoff Hana. unfold config. rewrite Hoff.
  rewrite bool_decide_eq_false_2 by exact Hana.
  unfold member. simpl.
  destruct (String.eqb_spec k "sentry") as [->|Hne].
  - apply assoc_omit_eq.
  - apply assoc_omit_ne, Hne.
Qed.

(** ** Completeness of the configuration *)

Lemma nextConfig_required `{Packages} (be : BuildEnv) (h : Host) (p : list string) :
  In p requiredPaths ->
  is_Some (lookup_path p (nextConfig be h))
  /\ hd_error p <> Some "sentry" /\ p <> [].
Proof.
  intros Hin. unfold nextConfig.
  destruct (String.eqb (NEXT_BUILD_ENV_OUTPUT be) "standalone");
    simpl in Hin;
    repeat (destruct Hin as [<-|Hin];
            [split; [eexists; reflexivity|split; simpl; congruence]|]);
    destruct Hin.
Qed.

(** C7. For every combination of flags the exported configuration has a
    value under every path the [nextConfig] literal fills unconditionally
    (the [sentry] section apart, which is taken out on purpose when
    telemetry is off). The add-on wrappers are assumed not to drop what is
    stored under these paths. *)
Theorem required_paths_present `{Packages} (be : BuildEnv) (h : Host) :
  wrappers_keep requiredPaths ->
  Forall (fun p => is_Some (lookup_path p (config be h))) requiredPaths.
Proof.
  intros Hk. apply List.Forall_forall. intros p Hin.
  destruct (nextConfig_required be h p Hin) as (Hsome & Hhd & Hne).
  exact (config_keeps_path be h requiredPaths p Hk Hin Hhd Hne Hsome).
Qed.

Lemma required_paths_present_witness :
  @wrappers_keep Reference.packages requiredPaths
  /\ Forall (fun p => is_Some (lookup_path p
               (@config Reference.packages
                  (Sample.buildEnv true true "standalone") Sample.analyzed)))
       requiredPaths.
Proof.
  assert (Hk : @wrappers_keep Reference.packages requiredPaths)
    by (apply reference_keep; reflexivity).
  exact (conj Hk (@required_paths_present Reference.packages
                    (Sample.buildEnv true true "standalone") Sample.analyzed Hk)).
Defined.

(** ** Loading the module *)

Lemma evaluate_config `{Packages} (be : BuildEnv) (h : Host) :
  st_config (evaluate be h) = config be h.
Proof.
  unfold evaluate, body.
  destruct (negb (NEXT_BUILD_ENV_SOURCEMAPS be)); reflexivity.
Qed.

Lemma evaluate_secureHeaders `{Packages} (be : BuildEnv) (h : Host) :
  st_secureHeaders (evaluate be h) = secureHeaders be h.
Proof.
  unfold evaluate, body.
  destruct (negb (NEXT_BUILD_ENV_SOURCEMAPS be)); reflexivity.
Qed.

(** The only thing the body prints is the notice about source maps. *)
Lemma evaluate_console `{Packages} (be : BuildEnv) (h : Host) :
  st_console (evaluate be h)
  = if NEXT_BUILD_ENV_SOURCEMAPS be then [] else [sourcemapsNotice].
Proof.
  unfold evaluate, body.
  destruct (NEXT_BUILD_ENV_SOURCEMAPS be); reflexivity.
Qed.

(** Valid flags always load: only the two environment modules can throw. *)
Lemma startup_loads `{Packages} `{EnvModules} (h : Host) (be : BuildEnv)
    (serverEnv : JsValue) :
  importBuildEnv (process_env h) = inr be ->
  getServerRuntimeEnv (process_env h) = inr serverEnv ->
  startup h = inr (evaluate be h).
Proof.
  intros Hb Hs. unfold startup. rewrite Hb, Hs. reflexivity.
Qed.

Lemma nextConfig_env `{Packages} (be : BuildEnv) (h : Host) :
  lookup_path ["env"; "APP_NAME"] (nextConfig be h)
  = Some (nullish (get "name" (packageJson h)) (JStr "not-in-package.json"))
  /\ lookup_path ["env"; "APP_VERSION"] (nextConfig be h)
     = Some (nullish (get "version" (packageJson h)) (JStr "not-in-package.json")).
Proof.
  unfold nextConfig.
  destruct (String.eqb (NEXT_BUILD_ENV_OUTPUT be) "standalone");
    split; reflexivity.
Qed.

(** C10. A package manifest without a [name] (or without a [version]) does
    not stop startup: once the environment modules accept the environment
    the module loads, and the exported [env.APP_NAME] (respectively
    [env.APP_VERSION]) is the string 'not-in-package.json'. The add-on
    wrappers are assumed to leave the two paths alone. *)
Theorem manifest_fallback `{Packages} `{EnvModules} (h : Host) (be : BuildEnv)
    (serverEnv : JsValue) :
  wrappers_preserve [["env"; "APP_NAME"]; ["env"; "APP_VERSION"]] ->
  importBuildEnv (process_env h) = inr be ->
  getServerRuntimeEnv (process_env h) = inr serverEnv ->
  exists m,
    startup h = inr m
    /\ (member "name" (packageJson h) = None ->
        lookup_path ["env"; "APP_NAME"] (st_config m)
        = Some (JStr "not-in-package.json"))
    /\ (member "version" (packageJson h) = None ->
        lookup_path ["env"; "APP_VERSION"] (st_config m)
        = Some (JStr "not-in-package.json")).
Proof.
  intros Hw Hb Hs. exists (evaluate be h).
  split; [exact (startup_loads h be serverEnv Hb Hs)|].
  rewrite evaluate_config.
  rewrite !(config_lookup_path be h _ _ Hw) by (simpl; auto; congruence).
  destruct (nextConfig_env be h) as [-> ->].
  unfold get. split; intros ->; reflexivity.
Qed.

Lemma manifest_fallback_witness :
  @wrappers_preserve Reference.packages
    [["env"; "APP_NAME"]; ["env"; "APP_VERSION"]]
  /\ @importBuildEnv Sample.envModules (process_env Sample.unnamed)
     = inr (Sample.buildEnv false false "classic")
  /\ @getServerRuntimeEnv Sample.envModules (process_env Sample.unnamed)
     = inr (JObj [])
  /\ exists m,
       @startup Reference.packages Sample.envModules Sample.unnamed = inr m
       /\ (member "name" (packageJson Sample.unnamed) = None ->
           lookup_path ["env"; "APP_NAME"] (st_config m)
           = Some (JStr "not-in-package.json"))
       /\ (member "version" (packageJson Sample.unnamed) = None ->
           lookup_path ["env"; "APP_VERSION"] (st_config m)
           = Some (JStr "not-in-package.json")).
Proof.
  assert (Hw : @wrappers_preserve Reference.packages
                 [["env"; "APP_NAME"]; ["env"; "APP_VERSION"]])
    by (apply reference_preserve; reflexivity).
  assert (Hb : @importBuildEnv Sample.envModules (process_env Sample.unnamed)
               = inr (Sample.buildEnv false false "classic"))
    by (vm_compute; reflexivity).
  assert (Hs : @getServerRuntimeEnv Sample.envModules (process_env Sample.unnamed)
               = inr (JObj []))
    by (vm_compute; reflexivity).
  exact (conj Hw (conj Hb (conj Hs
           (@manifest_fallback Reference.packages Sample.envModules
              Sample.unnamed (Sample.buildEnv false false "classic") (JObj [])
              Hw Hb Hs)))).
Defined.

(** ** The header list *)

Lemma headers_run (s : ModuleState) :
  headers s
  = ([ {| source := "/:path((?!api).*)*";
          rule_headers := st_secureHeaders s ++ [coop; coep] |} ], s).
Proof. reflexivity. Qed.

Lemma headerList_eq `{Packages} (be : BuildEnv) (h : Host) :
  headerList be h = (secureHeaders be h ++ [coop; coep])%list.
Proof.
  unfold headerList, headerRules. rewrite headers_run. simpl.
  rewrite evaluate_secureHeaders. apply app_nil_r.
Qed.

(** The two cross-origin isolation headers close the list, whatever the
    flags and whatever [createSecureHeaders] returns. *)
Lemma cross_origin_headers `{Packages} (be : BuildEnv) (h : Host) :
  In coop (headerList be h) /\ In coep (headerList be h).
Proof.
  rewrite headerList_eq. split; apply in_or_app; right; simpl; auto.
Qed.

(** Under the package's contract the Referrer-Policy header is in the list
    for both values of the strict-policy flag. *)
Lemma referrer_policy_header `{Packages} (be : BuildEnv) (h : Host) :
  emits_referrer_policy ->
  In {| key := "Referrer-Policy"; value := "same-origin" |} (headerList be h).
Proof.
  intros Hlib. rewrite headerList_eq. apply in_or_app. left.
  apply Hlib. reflexivity.
Qed.

Lemma reference_emits_csp :
  @emits_csp Reference.packages Reference.contentSecurityPolicyValue.
Proof.
  intros o csp Hcsp _. simpl. unfold Reference.createSecureHeaders.
  rewrite Hcsp. simpl. left. reflexivity.
Qed.

Lemma reference_emits_referrer_policy :
  @emits_referrer_policy Reference.packages.
Proof.
  intros o p Hp. simpl. unfold Reference.createSecureHeaders. rewrite Hp.
  rewrite !in_app_iff. do 5 right. left. simpl. left. reflexivity.
Qed.

(** C1. With NEXT_BUILD_ENV_CSP true the directive set handed to the
    header builder is non-empty and the returned list holds the
    Content-Security-Policy header rendered from it; with the flag false the
    directive set is empty. For both values the Cross-Origin-Opener-Policy
    and Cross-Origin-Embedder-Policy headers are in the list. The package
    is assumed to emit the policy header for a non-empty directive set. *)
Theorem csp_by_flag `{Packages} (render : ContentSecurityPolicyOption -> string)
    (be : BuildEnv) (h : Host) :
  emits_csp render ->
  exists csp,
    contentSecurityPolicy (secureHeadersOptions be h) = Some csp
    /\ In coop (headerList be h)
    /\ In coep (headerList be h)
    /\ if NEXT_BUILD_ENV_CSP be
       then directives csp <> []
            /\ In {| key := "Content-Security-Policy"; value := render csp |}
                  (headerList be h)
       else directives csp = [].
Proof.
  intros Hlib.
  destruct (cross_origin_headers be h) as [Hcoop Hcoep].
  eexists. split; [reflexivity|]. split; [exact Hcoop|]. split; [exact Hcoep|].
  simpl. destruct (NEXT_BUILD_ENV_CSP be) eqn:Hflag; [|reflexivity].
  split; [discriminate|].
  rewrite headerList_eq. apply in_or_app. left.
  apply Hlib; simpl; rewrite ?Hflag; [reflexivity|discriminate].
Qed.

Lemma csp_by_flag_witness :
  @emits_csp Reference.packages Reference.contentSecurityPolicyValue
  /\ exists csp,
       contentSecurityPolicy
         (secureHeadersOptions (Sample.buildEnv true false "classic")
            Sample.production) = Some csp
       /\ In coop (@headerList Reference.packages
                     (Sample.buildEnv true false "classic") Sample.production)
       /\ In coep (@headerList Reference.packages
                     (Sample.buildEnv true false "classic") Sample.production)
       /\ directives csp <> []
       /\ In {| key := "Content-Security-Policy";
                value := Reference.contentSecurityPolicyValue csp |}
             (@headerList Reference.packages
                (Sample.buildEnv true false "classic") Sample.production).
Proof.
  split; [exact reference_emits_csp|].
  exact (@csp_by_flag Reference.packages Reference.contentSecurityPolicyValue
           (Sample.buildEnv true false "classic") Sample.production
           reference_emits_csp).
Defined.

(** C2, as the code has it. The header list is determined by the
    strict-policy flag together with whether NODE_ENV is 'production', and
    the latter matters only when the flag is true (it switches the
    forceHTTPSRedirect option on): two runs that agree on these return the
    same ordered list, whatever the other flags, variables and inputs. *)
Theorem headers_by_flag_and_mode `{Packages} (be1 be2 : BuildEnv) (h1 h2 : Host) :
  NEXT_BUILD_ENV_CSP be1 = NEXT_BUILD_ENV_CSP be2 ->
  (NEXT_BUILD_ENV_CSP be1 = true -> isProd h1 = isProd h2) ->
  headerList be1 h1 = headerList be2 h2.
Proof.
  intros Hflag Hmode. rewrite !headerList_eq. f_equal.
  unfold secureHeaders. f_equal. unfold secureHeadersOptions.
  rewrite <- Hflag. unfold isProd in Hmode.
  destruct (NEXT_BUILD_ENV_CSP be1); [|reflexivity].
  simpl. rewrite (Hmode eq_refl). reflexivity.
Qed.

Lemma headers_by_flag_and_mode_witness :
  NEXT_BUILD_ENV_CSP (Sample.buildEnv true false "classic")
  = NEXT_BUILD_ENV_CSP (Sample.buildEnv true true "standalone")
  /\ (NEXT_BUILD_ENV_CSP (Sample.buildEnv true false "classic") = true ->
      @isProd Sample.production = @isProd Sample.analyzed)
  /\ @headerList Reference.packages (Sample.buildEnv true false "classic")
       Sample.production
     = @headerList Reference.packages (Sample.buildEnv true true "standalone")
         Sample.analyzed.
Proof.
  assert (Hflag : NEXT_BUILD_ENV_CSP (Sample.buildEnv true false "classic")
                  = NEXT_BUILD_ENV_CSP (Sample.buildEnv true true "standalone"))
    by reflexivity.
  assert (Hmode : NEXT_BUILD_ENV_CSP (Sample.buildEnv true false "classic") = true ->
                  @isProd Sample.production = @isProd Sample.analyzed)
    by (intros _; vm_compute; reflexivity).
  exact (conj Hflag (conj Hmode
           (@headers_by_flag_and_mode Reference.packages _ _ _ _ Hflag Hmode))).
Defined.

(** C2, as stated, fails: with the strict-policy flag true in both runs,
    the list served under NODE_ENV=production differs from the one served
    under NODE_ENV=development (the Strict-Transport-Security value). *)
Lemma headers_vary_with_node_env :
  NEXT_BUILD_ENV_CSP (Sample.buildEnv true false "classic")
  = NEXT_BUILD_ENV_CSP (Sample.buildEnv true false "classic")
  /\ forceHTTPSRedirect
       (secureHeadersOptions (Sample.buildEnv true false "classic")
          Sample.production)
     <> forceHTTPSRedirect
          (secureHeadersOptions (Sample.buildEnv true false "classic")
             Sample.development)
  /\ @headerList Reference.packages (Sample.buildEnv true false "classic")
       Sample.production
     <> @headerList Reference.packages (Sample.buildEnv true false "classic")
          Sample.development.
Proof.
  split; [reflexivity|]. split; intros Heq; vm_compute in Heq; discriminate.
Qed.

(** C6. [headers()] is deterministic and leaves the module as it found it:
    two calls in a row return the same rules, and the state after them
    (module bindings and console) is the state before. *)
Theorem headers_deterministic_pure (s : ModuleState) :
  (r1 <- headers ;; r2 <- headers ;; ret (r1, r2)) s
  = ((fst (headers s), fst (headers s)), s)
  /\ snd (headers s) = s.
Proof.
  unfold bind. rewrite !headers_run. split; reflexivity.
Qed.

(** A run on the sample module: nine headers under one rule, the module
    untouched. *)
Example headers_sample_run :
  map (fun r => (source r, map key (rule_headers r)))
      (fst (headers Sample.moduleState))
  = [ ("/:path((?!api).*)*",
       [ "Content-Security-Policy"; "Strict-Transport-Security";
         "X-Frame-Options"; "X-Download-Options"; "X-Content-Type-Options";
         "Referrer-Policy"; "X-XSS-Protection";
         "Cross-Origin-Opener-Policy"; "Cross-Origin-Embedder-Policy" ]) ]
  /\ snd (headers Sample.moduleState) = Sample.moduleState.
Proof. split; vm_compute; reflexivity. Qed.

(** ** The route pattern *)

Lemma begins_app (pre s : string) :
  PathMatch.begins true pre s = true -> exists rest, s = pre ++ rest.
Proof.
  revert s. induction pre as [|a pre IH]; intros s Hs; simpl in Hs.
  - exists s. reflexivity.
  - destruct s as [|b s]; [discriminate|].
    apply andb_true_iff in Hs as [Hab Hrest].
    apply Ascii.eqb_eq in Hab as ->.
    destruct (IH s Hrest) as [rest ->]. exists rest. reflexivity.
Qed.

Lemma api_route_shape (path : string) :
  PathMatch.is_api_route path = true ->
  path = "/api" \/ exists rest, path = "/api/" ++ rest.
Proof.
  unfold PathMatch.is_api_route. intros Hb.
  apply orb_true_iff in Hb as [Heq|Hpre].
  - left. apply String.eqb_eq, Heq.
  - right. apply begins_app, Hpre.
Qed.

(** The dot-star of the pattern swallows the rest of any path. *)
Lemma star_dot (sensitive : bool) (fuel n : nat) (s : string)
    (k : string -> bool) :
  PathMatch.line_free s = true -> (String.length s <= n)%nat -> k "" = true ->
  PathMatch.star (fun s' k' => PathMatch.run sensitive fuel PathMatch.Dot s' k')
    n s k = true.
Proof.
  revert n. induction s as [|c s IH]; intros n Hfree Hlen Hk.
  - destruct n; simpl; exact Hk.
  - simpl in Hfree. apply andb_true_iff in Hfree as [Hc Hfree].
    destruct n as [|n]; [simpl in Hlen; lia|].
    simpl in Hlen. simpl in IH |- *. rewrite Hc. simpl.
    rewrite (IH n Hfree ltac:(lia) Hk).
    replace (String.length s <? S (String.length s))%nat with true
      by (symmetry; apply Nat.ltb_lt; lia).
    reflexivity.
Qed.

Lemma lookahead_api (sensitive : bool) (fuel : nat) (s : string) :
  PathMatch.run sensitive fuel (PathMatch.lit "api") s (fun _ => true)
  = PathMatch.begins sensitive "api" s.
Proof.
  destruct s as [|c1 [|c2 [|c3 s]]]; simpl;
    rewrite ?andb_true_r, ?andb_false_r; reflexivity.
Qed.

(** X14. What the rule matches: a path [/r] gets the headers exactly when
    [r] does not begin with "api". *)
Lemma source_matches_slash (sensitive : bool) (r : string) :
  PathMatch.line_free r = true ->
  PathMatch.source_matches sensitive ("/" ++ r)
  = negb (PathMatch.begins sensitive "api" r).
Proof.
  intros Hfree. change ("/" ++ r) with (String "/" r).
  unfold PathMatch.source_matches, PathMatch.test, PathMatch.compiled,
    PathMatch.pathParam.
  assert (Hslash : PathMatch.same sensitive "/" "/" = true)
    by (destruct sensitive; reflexivity).
  cbn [PathMatch.run String.length]. rewrite Hslash, lookahead_api.
  destruct (PathMatch.begins sensitive "api" r) eqn:Hapi.
  - simpl. destruct r; [discriminate|reflexivity].
  - cbn [negb andb].
    match goal with
    | |- context [PathMatch.star ?b ?n r ?k] =>
        replace (PathMatch.star b n r k) with true; [reflexivity|]
    end.
    symmetry. apply (star_dot sensitive 0); [exact Hfree|lia|reflexivity].
Qed.

(** X15. No API route gets the headers: the look-ahead rejects [/api] and
    everything below it. *)
Lemma api_routes_excluded (sensitive : bool) (path : string) :
  PathMatch.is_api_route path = true ->
  PathMatch.source_matches sensitive path = false.
Proof.
  intros Hapi. destruct (api_route_shape path Hapi) as [->|[rest ->]];
    destruct sensitive; vm_compute; reflexivity.
Qed.

(** C8. The request path "/apiary" is not an API route, yet the rule of
    [headers()] does not apply to it, in either case-sensitivity mode of the
    host: the look-ahead rejects every first segment that merely begins
    with "api". A plain page path such as "/about" is matched. *)
Theorem apiary_not_matched (sensitive : bool) :
  PathMatch.is_api_route "/apiary" = false
  /\ PathMatch.source_matches sensitive "/apiary" = false
  /\ PathMatch.source_matches sensitive "/about" = true.
Proof.
  destruct sensitive; vm_compute; repeat split; reflexivity.
Qed.

(** ** Environment validation at startup *)

Lemma validate_fails (schema : list EnvSchema.FlagRule)
    (raw : gmap string string) (r : EnvSchema.FlagRule) :
  In r schema -> EnvSchema.offending raw r = true ->
  exists r', In r' schema /\ EnvSchema.offending raw r' = true
             /\ EnvSchema.validate schema raw
                = inl (InvalidEnv (EnvSchema.flagName r')).
Proof.
  intros Hin Hoff. unfold EnvSchema.validate.
  destruct (List.find (EnvSchema.offending raw) schema) as [r'|] eqn:Hfind.
  - apply List.find_some in Hfind as [Hin' Hoff']. exists r'. auto.
  - pose proof (List.find_none _ _ Hfind r Hin) as Hnone. congruence.
Qed.

Lemma validate_passes (schema : list EnvSchema.FlagRule)
    (raw : gmap string string) :
  EnvSchema.validate schema raw = inr tt ->
  forall r, In r schema -> EnvSchema.offending raw r = false.
Proof.
  unfold EnvSchema.validate. intros Hv r Hin.
  destruct (List.find (EnvSchema.offending raw) schema) eqn:Hfind;
    [discriminate|].
  exact (List.find_none _ _ Hfind r Hin).
Qed.

Lemma validate_cases (schema : list EnvSchema.FlagRule)
    (raw : gmap string string) :
  EnvSchema.validate schema raw = inr tt
  \/ exists r, In r schema /\ EnvSchema.offending raw r = true
               /\ EnvSchema.validate schema raw
                  = inl (InvalidEnv (EnvSchema.flagName r)).
Proof.
  unfold EnvSchema.validate.
  destruct (List.find (EnvSchema.offending raw) schema) as [r|] eqn:Hfind.
  - right. apply List.find_some in Hfind as [Hin Hoff]. exists r. auto.
  - left. reflexivity.
Qed.

(** C3. When a flag of either schema is offending (required and missing,
    or present and malformed), loading the module fails with an error that
    names an offending flag, and no module state (hence no configuration
    and no header list) exists. *)
Theorem invalid_env_aborts `{Packages}
    (buildSchema serverSchema : list EnvSchema.FlagRule)
    (decode : gmap string string -> BuildEnv) (h : Host)
    (r : EnvSchema.FlagRule) :
  In r (buildSchema ++ serverSchema) ->
  EnvSchema.offending (process_env h) r = true ->
  exists r',
    In r' (buildSchema ++ serverSchema)
    /\ EnvSchema.offending (process_env h) r' = true
    /\ @startup _ (EnvSchema.modules buildSchema serverSchema decode) h
       = inl (InvalidEnv (EnvSchema.flagName r')).
Proof.
  intros Hin Hoff. unfold startup. simpl.
  destruct (validate_cases buildSchema (process_env h))
    as [Hok|(r' & Hin' & Hoff' & Hfail)].
  - rewrite Hok.
    apply in_app_or in Hin as [Hb|Hs].
    + rewrite (validate_passes _ _ Hok r Hb) in Hoff. discriminate.
    + destruct (validate_fails serverSchema (process_env h) r Hs Hoff)
        as (r' & Hin' & Hoff' & Hfail).
      exists r'. rewrite Hfail. split; [apply in_or_app; auto|]. auto.
  - exists r'. rewrite Hfail. split; [apply in_or_app; auto|]. auto.
Qed.

Lemma invalid_env_aborts_witness :
  In Sample.databaseUrl
     (Sample.buildSchema ++ Sample.serverSchema)
  /\ EnvSchema.offending (process_env Sample.unconfigured)
       Sample.databaseUrl = true
  /\ exists r',
       In r' (Sample.buildSchema ++ Sample.serverSchema)
       /\ EnvSchema.offending (process_env Sample.unconfigured) r' = true
       /\ @startup Reference.packages Sample.envModules Sample.unconfigured
          = inl (InvalidEnv (EnvSchema.flagName r')).
Proof.
  assert (Hin : In Sample.databaseUrl
                   (Sample.buildSchema ++ Sample.serverSchema))
    by (simpl; auto).
  assert (Hoff : EnvSchema.offending (process_env Sample.unconfigured)
                   Sample.databaseUrl = true)
    by (vm_compute; reflexivity).
  exact (conj Hin (conj Hoff
           (@invalid_env_aborts Reference.packages Sample.buildSchema
              Sample.serverSchema Sample.decode Sample.unconfigured _ Hin Hoff))).
Defined.

(** Conversely a module that loaded saw no offending flag: nothing
    required was defaulted on the way. *)
Lemma loaded_env_is_valid `{Packages}
    (buildSchema serverSchema : list EnvSchema.FlagRule)
    (decode : gmap string string -> BuildEnv) (h : Host) (m : ModuleState) :
  @startup _ (EnvSchema.modules buildSchema serverSchema decode) h = inr m ->
  (forall r, In r (buildSchema ++ serverSchema) ->
             EnvSchema.offending (process_env h) r = false)
  /\ m = evaluate (decode (process_env h)) h.
Proof.
  unfold startup. simpl. intros Hload.
  destruct (EnvSchema.validate buildSchema (process_env h)) as [e|[]] eqn:Hb;
    [discriminate|].
  destruct (EnvSchema.validate serverSchema (process_env h)) as [e|[]] eqn:Hs;
    [discriminate|].
  split; [|congruence].
  intros r Hin. apply in_app_or in Hin as [Hin|Hin].
  - exact (validate_passes _ _ Hb r Hin).
  - exact (validate_passes _ _ Hs r Hin).
Qed.

(** * The webpack hook *)

(** ** The primitive steps *)

Lemma andThen_inv {A B : Type} (m : Hook.Outcome A) (f : A -> Hook.Outcome B)
    (b : B) :
  Hook.andThen m f = Hook.Returned b ->
  exists a, m = Hook.Returned a /\ f a = Hook.Returned b.
Proof.
  destruct m as [a| |]; simpl; intros Hrun; try discriminate Hrun. eauto.
Qed.

Lemma read_inv (k : string) (v x : JsValue) :
  Hook.read k v = Hook.Returned x -> x = get k v.
Proof.
  destruct v; simpl; intros Hrun; try discriminate Hrun;
    injection Hrun as <-; reflexivity.
Qed.

Lemma write_inv (k : string) (x v v' : JsValue) :
  Hook.write k x v = Hook.Returned v' ->
  exists o, v = JObj o /\ v' = JObj (assign k x o).
Proof.
  destruct v; simpl; intros Hrun; try discriminate Hrun.
  injection Hrun as <-. eauto.
Qed.

Lemma push_inv (x v v' : JsValue) :
  Hook.push x v = Hook.Returned v' ->
  exists items, v = JArr items /\ v' = JArr (items ++ [x]).
Proof.
  destruct v; simpl; intros Hrun; try discriminate Hrun.
  - injection Hrun as <-. eauto.
  - destruct (assoc "push" fields) as [[]|]; discriminate Hrun.
Qed.

Lemma with_fs_false_inv (fallback fallback' : JsValue) :
  Hook.with_fs_false fallback = Hook.Returned fallback' ->
  Hook.plain fallback = true
  /\ fallback' = obj [Spread fallback; Prop_ "fs" (JBool false)].
Proof.
  destruct fallback; simpl; intros Hrun; try discriminate Hrun;
    injection Hrun as <-; split; reflexivity.
Qed.

(** A property read that yields an object or an array was a read on an
    object that stores it. *)
Lemma get_stored (k : string) (v x : JsValue) :
  get k v = x -> x <> JUndefined ->
  exists fields, v = JObj fields /\ assoc k fields = Some x.
Proof.
  unfold get, member. intros Hget Hdef.
  destruct v; simpl in Hget; try congruence.
  destruct (assoc k fields) eqn:Hk; [|congruence].
  exists fields. split; congruence.
Qed.

Section HookSteps.
Context `{Hook.WebpackHost}.

Lemma push_plugin_inv (x config c' : JsValue) :
  Hook.push_plugin x config = Hook.Returned c' ->
  exists fields items,
    config = JObj fields
    /\ assoc "plugins" fields = Some (JArr items)
    /\ c' = JObj (assign "plugins" (JArr (items ++ [x])) fields).
Proof.
  unfold Hook.push_plugin. intros Hrun.
  apply andThen_inv in Hrun as (plugins & Hread & Hrun).
  apply andThen_inv in Hrun as (plugins' & Hpush & Hrun).
  apply read_inv in Hread. apply push_inv in Hpush as (items & -> & ->).
  destruct (get_stored "plugins" config (JArr items)) as (fields & -> & Hp);
    [congruence|discriminate|].
  injection Hrun as <-. exists fields, items. auto.
Qed.

Lemma push_plugin_returns (x : JsValue) (fields : Fields) (items : list JsValue) :
  assoc "plugins" fields = Some (JArr items) ->
  Hook.push_plugin x (JObj fields)
  = Hook.Returned (JObj (assign "plugins" (JArr (items ++ [x])) fields)).
Proof.
  intros Hp. unfold Hook.push_plugin, Hook.read, get, member. simpl.
  rewrite Hp. reflexivity.
Qed.

Lemma push_rule_inv (x config c' : JsValue) :
  Hook.push_rule x config = Hook.Returned c' ->
  exists fields mfields rules,
    config = JObj fields
    /\ assoc "module" fields = Some (JObj mfields)
    /\ assoc "rules" mfields = Some (JArr rules)
    /\ c' = JObj (assign "module"
                    (JObj (assign "rules" (JArr (rules ++ [x])) mfields)) fields).
Proof.
  unfold Hook.push_rule. intros Hrun.
  apply andThen_inv in Hrun as (module_ & Hmodule & Hrun).
  apply andThen_inv in Hrun as (rules & Hrules & Hrun).
  apply andThen_inv in Hrun as (rules' & Hpush & Hrun).
  apply read_inv in Hmodule. apply read_inv in Hrules.
  apply push_inv in Hpush as (items & -> & ->).
  destruct (get_stored "rules" module_ (JArr items)) as (mfields & -> & Hr);
    [congruence|discriminate|].
  destruct (get_stored "module" config (JObj mfields)) as (fields & -> & Hm);
    [congruence|discriminate|].
  injection Hrun as <-. exists fields, mfields, items. auto.
Qed.


Lemma set_fallback_inv (config c' : JsValue) :
  Hook.set_fallback config = Hook.Returned c' ->
  exists fields rfields,
    config = JObj fields
    /\ assoc "resolve" fields = Some (JObj rfields)
    /\ Hook.plain (get "fallback" (JObj rfields)) = true
    /\ c' = JObj (assign "resolve"
                    (JObj (assign "fallback"
                             (obj [ Spread (get "fallback" (JObj rfields));
                                    Prop_ "fs" (JBool false) ])
                             rfields))
                    fields).
Proof.
  unfold Hook.set_fallback. intros Hrun.
  apply andThen_inv in Hrun as (resolve & Hresolve & Hrun).
  apply andThen_inv in Hrun as (fallback & Hfallback & Hrun).
  apply andThen_inv in Hrun as (fallback' & Hspread & Hrun).
  apply andThen_inv in Hrun as (resolve' & Hwrite & Hrun).
  apply read_inv in Hresolve. apply read_inv in Hfallback.
  apply with_fs_false_inv in Hspread as [Hplain ->].
  apply write_inv in Hwrite as (rfields & -> & ->).
  destruct (get_stored "resolve" config (JObj rfields)) as (fields & -> & Hr);
    [congruence|discriminate|].
  injection Hrun as <-. subst fallback. exists fields, rfields. auto.
Qed.


End HookSteps.

(** ** The whole hook *)

Lemma assign_assign (k : string) (v1 v2 : JsValue) (o : Fields) :
  assign k v2 (assign k v1 o) = assign k v2 o.
Proof.
  induction o as [|[k0 v0] o IH]; simpl.
  - rewrite String.eqb_refl. reflexivity.
  - destruct (String.eqb_spec k k0) as [->|Hne]; simpl.
    + rewrite String.eqb_refl. reflexivity.
    + destruct (String.eqb_spec k k0); [contradiction|]. rewrite IH. reflexivity.
Qed.

Section HookRun.
Context `{Hook.WebpackHost}.

Lemma after_fallback_other (isServer : bool) (fields base : Fields) (k : string) :
  Hook.after_fallback isServer fields base ->
  k <> "resolve" -> assoc k base = assoc k fields.
Proof.
  unfold Hook.after_fallback. destruct isServer.
  - intros -> _. reflexivity.
  - intros (rfields & _ & _ & ->) Hk. apply assoc_assign_ne, Hk.
Qed.

Lemma webpack_shape (be : BuildEnv) (h : Host) (config c' : JsValue)
    (isServer : bool) :
  Hook.webpack be h config isServer = Hook.Returned c' ->
  exists fields base plugins mfields rules,
    config = JObj fields
    /\ Hook.after_fallback isServer fields base
    /\ assoc "plugins" fields = Some (JArr plugins)
    /\ assoc "module" fields = Some (JObj mfields)
    /\ assoc "rules" mfields = Some (JArr rules)
    /\ c' = JObj (assign "module"
                    (JObj (assign "rules" (JArr (rules ++ [Hook.svgRule h])) mfields))
                    (assign "plugins"
                       (JArr (plugins ++ Hook.addedPlugins be isServer)) base)).
Proof.
  unfold Hook.webpack. intros Hrun.
  apply andThen_inv in Hrun as (c1 & Hstep1 & Hrun).
  apply andThen_inv in Hrun as (c2 & Hstep2 & Hrun).
  apply andThen_inv in Hrun as (c3 & Hstep3 & Hrun).
  apply andThen_inv in Hrun as (c4 & Hstep4 & Hrun).
  injection Hrun as <-.
  apply push_plugin_inv in Hstep2 as (base & plugins & -> & Hplugins & ->).
  assert (Hfirst : exists fields,
             config = JObj fields /\ Hook.after_fallback isServer fields base).
  { unfold Hook.after_fallback. destruct isServer; simpl in Hstep1.
    - injection Hstep1 as ->. eauto.
    - apply set_fallback_inv in Hstep1 as (fields & rfields & -> & Hr & Hp & Heq).
      injection Heq as ->. eauto 6. }
  destruct Hfirst as (fields & -> & Hbase).
  assert (Hthird : c3 = JObj (assign "plugins"
                     (JArr (plugins ++ Hook.addedPlugins be isServer)) base)).
  { unfold Hook.addedPlugins. destruct isServer.
    - rewrite (push_plugin_returns _ _ (plugins ++ [Hook.DefinePlugin (Hook.sentryDefinitions be)]))
        in Hstep3 by apply assoc_assign_eq.
      injection Hstep3 as <-. rewrite assign_assign, <- app_assoc. reflexivity.
    - injection Hstep3 as <-. reflexivity. }
  subst c3.
  apply push_rule_inv in Hstep4 as (fields3 & mfields & rules & Heq & Hm & Hr & ->).
  injection Heq as <-.
  rewrite assoc_assign_ne in Hm by discriminate.
  exists fields, base, plugins, mfields, rules.
  repeat split; try assumption.
  - rewrite <- Hplugins. symmetry.
    apply (after_fallback_other isServer fields base "plugins" Hbase). discriminate.
  - rewrite <- Hm. symmetry.
    apply (after_fallback_other isServer fields base "module" Hbase). discriminate.
Qed.


End HookRun.

(** ** What a user of the hook can rely on *)

Section HookFacts.
Context `{Hook.WebpackHost}.




(** X4. The hook touches three sections only: every top-level key other
    than [plugins], [module] and, on a client build, [resolve] has the
    value it had. On a server build [resolve] is among the untouched. *)
Theorem hook_frame (be : BuildEnv) (h : Host) (config c' : JsValue)
    (isServer : bool) (k : string) :
  Hook.webpack be h config isServer = Hook.Returned c' ->
  k <> "plugins" -> k <> "module" -> (isServer = false -> k <> "resolve") ->
  member k c' = member k config.
Proof.
  intros Hrun Hkp Hkm Hkr.
  destruct (webpack_shape be h config c' isServer Hrun)
    as (fields & base & plugins & mfields & rules
        & -> & Hbase & Hp & Hm & Hr & ->).
  unfold member. simpl. rewrite !assoc_assign_ne by assumption.
  unfold Hook.after_fallback in Hbase. destruct isServer.
  - rewrite Hbase. reflexivity.
  - destruct Hbase as (rfields & _ & _ & ->).
    apply assoc_assign_ne, Hkr. reflexivity.
Qed.

(** X5. On a client build that returns, [resolve.fallback.fs] is [false]
    afterwards and every key of [resolve] other than [fallback] is as
    before. *)
Theorem hook_client_fallback (be : BuildEnv) (h : Host) (config c' : JsValue) :
  Hook.webpack be h config false = Hook.Returned c' ->
  lookup_path ["resolve"; "fallback"; "fs"] c' = Some (JBool false)
  /\ forall k, k <> "fallback" ->
       lookup_path ["resolve"; k] c' = lookup_path ["resolve"; k] config.
Proof.
  intros Hrun.
  destruct (webpack_shape be h config c' false Hrun)
    as (fields & base & plugins & mfields & rules
        & -> & Hbase & Hp & Hm & Hr & ->).
  destruct Hbase as (rfields & Hres & Hplain & ->).
  simpl. unfold member. simpl.
  rewrite !(assoc_assign_ne "resolve") by discriminate.
  rewrite assoc_assign_eq, Hres. simpl. rewrite assoc_assign_eq.
  split.
  - unfold obj. simpl. rewrite assoc_assign_eq. reflexivity.
  - intros k Hk. rewrite assoc_assign_ne by exact Hk. reflexivity.
Qed.

End HookFacts.

Lemma assign_fresh (k : string) (v : JsValue) (o : Fields) :
  ~ In k (map fst o) -> assign k v o = (o ++ [(k, v)])%list.
Proof.
  induction o as [|[k0 v0] o IH]; simpl; intros Hfresh; [reflexivity|].
  destruct (String.eqb_spec k k0) as [->|Hne]; [tauto|].
  rewrite IH by tauto. reflexivity.
Qed.

(** Copying a well-formed object key by key gives the object back. *)
Lemma spread_copy (o acc : Fields) :
  List.NoDup (map fst (acc ++ o)) ->
  fold_left (fun a kv => assign (fst kv) (snd kv) a) o acc = (acc ++ o)%list.
Proof.
  revert acc. induction o as [|[k v] o IH]; intros acc Hnd; simpl.
  - symmetry. apply app_nil_r.
  - rewrite assign_fresh.
    + rewrite IH; rewrite <- app_assoc; [reflexivity|exact Hnd].
    + rewrite map_app in Hnd. simpl in Hnd.
      apply List.NoDup_remove_2 in Hnd. rewrite in_app_iff in Hnd. tauto.
Qed.

Section HookEdges.
Context `{Hook.WebpackHost}.

(** X6. On a client build that returns, the entries the bundler had put
    under [resolve.fallback] are all still there with their values; only
    [fs] is set. (Objects have each key once.) *)
Theorem hook_fallback_entries_kept (be : BuildEnv) (h : Host)
    (config c' : JsValue) (k : string) :
  Hook.webpack be h config false = Hook.Returned c' ->
  List.NoDup (map fst (own_fields (get "fallback" (get "resolve" config)))) ->
  k <> "fs" ->
  lookup_path ["resolve"; "fallback"; k] c'
  = lookup_path ["resolve"; "fallback"; k] config.
Proof.
  intros Hrun Hnd Hk.
  destruct (webpack_shape be h config c' false Hrun)
    as (fields & base & plugins & mfields & rules
        & -> & Hbase & Hp & Hm & Hr & ->).
  destruct Hbase as (rfields & Hres & Hplain & ->).
  revert Hnd. simpl. unfold get at 2. unfold member. simpl.
  rewrite !(assoc_assign_ne "resolve") by discriminate.
  rewrite assoc_assign_eq, Hres. simpl. rewrite assoc_assign_eq.
  intros Hnd. unfold obj. simpl.
  rewrite assoc_assign_ne by exact Hk.
  rewrite (spread_copy _ []) by exact Hnd. simpl.
  unfold get, member. simpl.
  destruct (assoc "fallback" rfields); reflexivity.
Qed.

(** X8. A configuration without a [resolve] section makes a client build
    throw a TypeError, and one without [plugins] makes a server build
    throw a TypeError. *)
Theorem hook_type_errors (be : BuildEnv) (h : Host) (config : JsValue)
    (isServer : bool) :
  (isServer = false /\ member "resolve" config = None)
  \/ (isServer = true /\ member "plugins" config = None) ->
  Hook.webpack be h config isServer = Hook.TypeError.
Proof.
  intros [[-> Hmiss]|[-> Hmiss]]; unfold Hook.webpack; simpl.
  - unfold Hook.set_fallback, Hook.read.
    destruct config; try reflexivity; unfold get; rewrite Hmiss; reflexivity.
  - unfold Hook.push_plugin, Hook.read.
    destruct config; try reflexivity; unfold get; rewrite Hmiss; reflexivity.
Qed.

End HookEdges.

(** The sample run, for the statements above. *)
Lemma sample_client_run :
  @Hook.webpack Hook.sampleHost (Sample.buildEnv true true "classic")
    Sample.production Hook.sampleConfig false
  = Hook.Returned Hook.sampleClientResult.
Proof. vm_compute. reflexivity. Qed.



Lemma hook_frame_witness :
  @Hook.webpack Hook.sampleHost (Sample.buildEnv true true "classic")
    Sample.production Hook.sampleConfig false
  = Hook.Returned Hook.sampleClientResult
  /\ "mode" <> "plugins" /\ "mode" <> "module"
  /\ (false = false -> "mode" <> "resolve")
  /\ member "mode" Hook.sampleClientResult = member "mode" Hook.sampleConfig.
Proof.
  assert (H1 : "mode" <> "plugins") by discriminate.
  assert (H2 : "mode" <> "module") by discriminate.
  assert (H3 : false = false -> "mode" <> "resolve") by (intros _; discriminate).
  exact (conj sample_client_run (conj H1 (conj H2 (conj H3
           (@hook_frame Hook.sampleHost _ _ _ _ _ "mode"
              sample_client_run H1 H2 H3))))).
Defined.

Lemma hook_client_fallback_witness :
  @Hook.webpack Hook.sampleHost (Sample.buildEnv true true "classic")
    Sample.production Hook.sampleConfig false
  = Hook.Returned Hook.sampleClientResult
  /\ lookup_path ["resolve"; "fallback"; "fs"] Hook.sampleClientResult
     = Some (JBool false)
  /\ forall k, k <> "fallback" ->
       lookup_path ["resolve"; k] Hook.sampleClientResult
       = lookup_path ["resolve"; k] Hook.sampleConfig.
Proof.
  exact (conj sample_client_run
           (@hook_client_fallback Hook.sampleHost _ _ _ _ sample_client_run)).
Defined.

Lemma hook_fallback_entries_kept_witness :
  @Hook.webpack Hook.sampleHost (Sample.buildEnv true true "classic")
    Sample.production Hook.sampleConfig false
  = Hook.Returned Hook.sampleClientResult
  /\ List.NoDup (map fst (own_fields
                            (get "fallback" (get "resolve" Hook.sampleConfig))))
  /\ "process" <> "fs"
  /\ lookup_path ["resolve"; "fallback"; "process"] Hook.sampleClientResult
     = lookup_path ["resolve"; "fallback"; "process"] Hook.sampleConfig.
Proof.
  assert (Hnd : List.NoDup (map fst (own_fields
                   (get "fallback" (get "resolve" Hook.sampleConfig)))))
    by (vm_compute; repeat constructor; simpl; tauto).
  assert (Hk : "process" <> "fs") by discriminate.
  exact (conj sample_client_run (conj Hnd (conj Hk
           (@hook_fallback_entries_kept Hook.sampleHost _ _ _ _ "process"
              sample_client_run Hnd Hk)))).
Defined.

Lemma hook_type_errors_witness :
  ((false = false /\ member "resolve" Hook.sampleServerConfig = None)
   \/ (false = true /\ member "plugins" Hook.sampleServerConfig = None))
  /\ @Hook.webpack Hook.sampleHost (Sample.buildEnv true true "classic")
       Sample.production Hook.sampleServerConfig false
     = Hook.TypeError.
Proof.
  assert (Hmiss : (false = false /\ member "resolve" Hook.sampleServerConfig = None)
                  \/ (false = true /\ member "plugins" Hook.sampleServerConfig = None))
    by (left; split; reflexivity).
  exact (conj Hmiss
           (@hook_type_errors Hook.sampleHost (Sample.buildEnv true true "classic")
              Sample.production Hook.sampleServerConfig false Hmiss)).
Defined.

Lemma assign_keys (k : string) (v : JsValue) (o : Fields) :
  is_Some (assoc k o) -> map fst (assign k v o) = map fst o.
Proof.
  induction o as [|[k0 v0] o IH]; simpl; intros [x Hx]; [discriminate|].
  destruct (String.eqb_spec k k0) as [->|Hne]; simpl; [reflexivity|].
  rewrite IH by eauto. reflexivity.
Qed.

(** X7. The hook adds no top-level key and moves none: the keys of the
    configuration it returns are the keys it was given, in the same
    order. *)
Theorem hook_keeps_keys `{Hook.WebpackHost} (be : BuildEnv) (h : Host)
    (config c' : JsValue) (isServer : bool) :
  Hook.webpack be h config isServer = Hook.Returned c' ->
  map fst (own_fields c') = map fst (own_fields config).
Proof.
  intros Hrun.
  destruct (webpack_shape be h config c' isServer Hrun)
    as (fields & base & plugins & mfields & rules
        & -> & Hbase & Hp & Hm & Hr & ->).
  assert (Hp' : assoc "plugins" base = Some (JArr plugins))
    by (rewrite (after_fallback_other _ _ _ "plugins" Hbase); [exact Hp|discriminate]).
  assert (Hm' : assoc "module" base = Some (JObj mfields))
    by (rewrite (after_fallback_other _ _ _ "module" Hbase); [exact Hm|discriminate]).
  simpl. rewrite assign_keys
    by (rewrite assoc_assign_ne by discriminate; rewrite Hm'; eauto).
  rewrite assign_keys by (rewrite Hp'; eauto).
  unfold Hook.after_fallback in Hbase. destruct isServer; [rewrite Hbase; reflexivity|].
  destruct Hbase as (rfields & Hres & _ & ->).
  apply assign_keys. rewrite Hres. eauto.
Qed.

Lemma hook_keeps_keys_witness :
  @Hook.webpack Hook.sampleHost (Sample.buildEnv true true "classic")
    Sample.production Hook.sampleConfig false
  = Hook.Returned Hook.sampleClientResult
  /\ map fst (own_fields Hook.sampleClientResult)
     = map fst (own_fields Hook.sampleConfig).
Proof.
  exact (conj sample_client_run
           (@hook_keeps_keys Hook.sampleHost _ _ _ _ _ sample_client_run)).
Defined.

(** * Further properties of the configuration *)

(** X9. What the module prints and what it exports agree: the notice about
    source maps is on the console exactly in the runs whose exported
    [productionBrowserSourceMaps] is [false], and nothing else is printed.
    The add-on wrappers are assumed to leave that key alone. *)
Theorem sourcemaps_notice_matches_config `{Packages} (be : BuildEnv) (h : Host) :
  wrappers_preserve [["productionBrowserSourceMaps"]] ->
  exists enabled,
    lookup_path ["productionBrowserSourceMaps"] (st_config (evaluate be h))
    = Some (JBool enabled)
    /\ st_console (evaluate be h)
       = if enabled then [] else [sourcemapsNotice].
Proof.
  intros Hw. exists (NEXT_BUILD_ENV_SOURCEMAPS be).
  rewrite evaluate_console, evaluate_config.
  rewrite (config_lookup_path be h _ _ Hw) by (simpl; auto; congruence).
  split; [|reflexivity].
  unfold nextConfig.
  destruct (String.eqb (NEXT_BUILD_ENV_OUTPUT be) "standalone"); reflexivity.
Qed.

Lemma sourcemaps_notice_matches_config_witness :
  @wrappers_preserve Reference.packages [["productionBrowserSourceMaps"]]
  /\ exists enabled,
       lookup_path ["productionBrowserSourceMaps"]
         (st_config (@evaluate Reference.packages
                       (Sample.buildEnv true false "classic") Sample.production))
       = Some (JBool enabled)
       /\ st_console (@evaluate Reference.packages
                        (Sample.buildEnv true false "classic") Sample.production)
          = if enabled then [] else [@sourcemapsNotice Reference.packages].
Proof.
  assert (Hw : @wrappers_preserve Reference.packages
                 [["productionBrowserSourceMaps"]])
    by (apply reference_preserve; reflexivity).
  exact (conj Hw (@sourcemaps_notice_matches_config Reference.packages
                    (Sample.buildEnv true false "classic") Sample.production Hw)).
Defined.

(** X10. A manifest value is replaced by 'not-in-package.json' only when it
    is [null] or [undefined]; any other [name], the empty string and
    non-strings included, is exported as [env.APP_NAME] unchanged, and
    likewise [version] as [env.APP_VERSION]. The add-on wrappers are
    assumed to leave the two paths alone. *)
Theorem manifest_values_kept `{Packages} (be : BuildEnv) (h : Host)
    (name version : JsValue) :
  wrappers_preserve [["env"; "APP_NAME"]; ["env"; "APP_VERSION"]] ->
  member "name" (packageJson h) = Some name ->
  member "version" (packageJson h) = Some version ->
  lookup_path ["env"; "APP_NAME"] (config be h)
  = Some (if is_nullish name then JStr "not-in-package.json" else name)
  /\ lookup_path ["env"; "APP_VERSION"] (config be h)
     = Some (if is_nullish version then JStr "not-in-package.json" else version).
Proof.
  intros Hw Hname Hversion.
  rewrite !(config_lookup_path be h _ _ Hw) by (simpl; auto; congruence).
  destruct (nextConfig_env be h) as [-> ->].
  unfold get. rewrite Hname, Hversion.
  split; [destruct name|destruct version]; reflexivity.
Qed.

Lemma manifest_values_kept_witness :
  @wrappers_preserve Reference.packages
    [["env"; "APP_NAME"]; ["env"; "APP_VERSION"]]
  /\ member "name" (packageJson Edge.oddManifest) = Some (JStr "")
  /\ member "version" (packageJson Edge.oddManifest) = Some JNull
  /\ lookup_path ["env"; "APP_NAME"]
       (@config Reference.packages (Sample.buildEnv true true "classic")
          Edge.oddManifest) = Some (JStr "")
  /\ lookup_path ["env"; "APP_VERSION"]
       (@config Reference.packages (Sample.buildEnv true true "classic")
          Edge.oddManifest) = Some (JStr "not-in-package.json").
Proof.
  assert (Hw : @wrappers_preserve Reference.packages
                 [["env"; "APP_NAME"]; ["env"; "APP_VERSION"]])
    by (apply reference_preserve; reflexivity).
  assert (Hn : member "name" (packageJson Edge.oddManifest) = Some (JStr ""))
    by reflexivity.
  assert (Hv : member "version" (packageJson Edge.oddManifest) = Some JNull)
    by reflexivity.
  exact (conj Hw (conj Hn (conj Hv
           (@manifest_values_kept Reference.packages
              (Sample.buildEnv true true "classic") Edge.oddManifest
              (JStr "") JNull Hw Hn Hv)))).
Defined.

Lemma config_plain_witness :
  NEXT_BUILD_ENV_SENTRY_ENABLED (Sample.buildEnv true false "standalone") = false
  /\ process_env Sample.production !! "ANALYZE" <> Some "true"
  /\ member "experimental"
       (@config Reference.packages (Sample.buildEnv true false "standalone")
          Sample.production)
     = member "experimental"
         (@nextConfig Reference.packages (Sample.buildEnv true false "standalone")
            Sample.production).
Proof.
  assert (Hoff : NEXT_BUILD_ENV_SENTRY_ENABLED
                   (Sample.buildEnv true false "standalone") = false)
    by reflexivity.
  assert (Hana : process_env Sample.production !! "ANALYZE" <> Some "true")
    by (vm_compute; discriminate).
  exact (conj Hoff (conj Hana
           (@config_plain Reference.packages
              (Sample.buildEnv true false "standalone") Sample.production
              "experimental" Hoff Hana))).
Defined.

Lemma reference_analyzer_keeps_sentry (o : JsValue) :
  preserves (Reference.withBundleAnalyzer o) [["sentry"]].
Proof.
  intros p c [<-|[]]. unfold Reference.withBundleAnalyzer.
  destruct (get "enabled" o) as [| |[|]| | | | |]; try reflexivity;
    simpl; unfold member; simpl; rewrite assoc_assign_ne by discriminate;
    reflexivity.
Qed.

(** X12. With telemetry off the [sentry] section never reaches the host:
    the exported configuration has no [sentry] key, with or without the
    bundle analyzer, provided the analyzer does not add one. *)
Theorem sentry_section_removed `{Packages} (be : BuildEnv) (h : Host) :
  NEXT_BUILD_ENV_SENTRY_ENABLED be = false ->
  (forall o, preserves (withBundleAnalyzer o) [["sentry"]]) ->
  lookup_path ["sentry"] (config be h) = None.
Proof.
  intros Hoff Ha. unfold config. rewrite Hoff.
  assert (Hrest : lookup_path ["sentry"]
                    (JObj (omit "sentry" (own_fields (nextConfig be h)))) = None).
  { simpl. unfold member. simpl. rewrite assoc_omit_eq. reflexivity. }
  destruct (bool_decide _); [|exact Hrest].
  rewrite (Ha _ ["sentry"]) by (simpl; auto). exact Hrest.
Qed.

Lemma sentry_section_removed_witness :
  NEXT_BUILD_ENV_SENTRY_ENABLED (Sample.buildEnv true false "classic") = false
  /\ (forall o, preserves (Reference.withBundleAnalyzer o) [["sentry"]])
  /\ lookup_path ["sentry"]
       (@config Reference.packages (Sample.buildEnv true false "classic")
          Sample.analyzed) = None.
Proof.
  assert (Hoff : NEXT_BUILD_ENV_SENTRY_ENABLED
                   (Sample.buildEnv true false "classic") = false)
    by reflexivity.
  exact (conj Hoff (conj reference_analyzer_keeps_sentry
           (@sentry_section_removed Reference.packages
              (Sample.buildEnv true false "classic") Sample.analyzed Hoff
              reference_analyzer_keeps_sentry))).
Defined.

(** X13. No header name is served twice: when the list the package returns
    has distinct names and none of the two cross-origin ones, the names of
    the list [headers()] serves are distinct. *)
Theorem header_names_distinct `{Packages} (be : BuildEnv) (h : Host) :
  List.NoDup (map key (secureHeaders be h)) ->
  ~ In "Cross-Origin-Opener-Policy" (map key (secureHeaders be h)) ->
  ~ In "Cross-Origin-Embedder-Policy" (map key (secureHeaders be h)) ->
  List.NoDup (map key (headerList be h)).
Proof.
  intros Hnd Hcoop Hcoep. rewrite headerList_eq, map_app. simpl.
  apply List.NoDup_app; [exact Hnd| |].
  - repeat constructor; simpl; intuition discriminate.
  - intros name Hin [<-|[<-|[]]]; tauto.
Qed.

Lemma header_names_distinct_witness :
  List.NoDup (map key (@secureHeaders Reference.packages
                         (Sample.buildEnv true false "classic") Sample.production))
  /\ ~ In "Cross-Origin-Opener-Policy"
         (map key (@secureHeaders Reference.packages
                     (Sample.buildEnv true false "classic") Sample.production))
  /\ ~ In "Cross-Origin-Embedder-Policy"
         (map key (@secureHeaders Reference.packages
                     (Sample.buildEnv true false "classic") Sample.production))
  /\ List.NoDup (map key (@headerList Reference.packages
                            (Sample.buildEnv true false "classic")
                            Sample.production)).
Proof.
  assert (Hnd : List.NoDup (map key (@secureHeaders Reference.packages
                   (Sample.buildEnv true false "classic") Sample.production)))
    by (vm_compute; repeat constructor; simpl; intuition discriminate).
  assert (Hcoop : ~ In "Cross-Origin-Opener-Policy"
                      (map key (@secureHeaders Reference.packages
                         (Sample.buildEnv true false "classic") Sample.production)))
    by (vm_compute; intuition discriminate).
  assert (Hcoep : ~ In "Cross-Origin-Embedder-Policy"
                      (map key (@secureHeaders Reference.packages
                         (Sample.buildEnv true false "classic") Sample.production)))
    by (vm_compute; intuition discriminate).
  exact (conj Hnd (conj Hcoop (conj Hcoep
           (@header_names_distinct Reference.packages
              (Sample.buildEnv true false "classic") Sample.production
              Hnd Hcoop Hcoep)))).
Defined.

Lemma source_matches_slash_witness :
  PathMatch.line_free "docs/api/v1" = true
  /\ PathMatch.source_matches false ("/" ++ "docs/api/v1")
     = negb (PathMatch.begins false "api" "docs/api/v1").
Proof.
  assert (Hfree : PathMatch.line_free "docs/api/v1" = true) by reflexivity.
  exact (conj Hfree (source_matches_slash false "docs/api/v1" Hfree)).
Defined.

Lemma api_routes_excluded_witness :
  PathMatch.is_api_route "/api/graphql" = true
  /\ PathMatch.source_matches false "/api/graphql" = false.
Proof.
  assert (Hapi : PathMatch.is_api_route "/api/graphql" = true) by reflexivity.
  exact (conj Hapi (api_routes_excluded false "/api/graphql" Hapi)).
Defined.
